(** * PM2.5 and weather analysis: a model of [pm25_weather_analysis.py]

    The script probes a live air-quality service once, synthesises a daily
    series of four signals, and summarises it (Pearson correlations and
    monthly means of PM2.5).

    Modelling conventions.
    - Python calls either return or raise: [pyresult].
    - Effects (console output, the global NumPy generator, the network, the
      frames created by pandas) are threaded through a [World] by a small
      state-and-exception monad [M].
    - A [DataFrame] is a mutable object: it lives in the store [frames] of
      the world and the program passes references to it.
    - [float64] values are modelled by real numbers (exact arithmetic, no
      rounding, no not-a-number among the inputs); a not-a-number result of
      the correlation is [None]. Statements are made on this model where
      they also hold of the rounded computation; [Float64] runs the
      correlation in binary64 itself, to show where an exact statement
      fails.
    - A [datetime] is an integer, its microseconds since 1970-01-01, within
      the range of the type (years 1 to 9999); arithmetic that leaves the
      range raises [OverflowError]. pandas is taken to accept every
      [datetime] as a timestamp. *)

From Stdlib Require Import ZArith List Ascii String Bool Lia Reals Lra Sorted.
From Stdlib Require PrimFloat.
Import ListNotations.

Local Open Scope Z_scope.
Set Warnings "-register-all".

(** ** Python outcomes *)

Inductive exception : Type :=
| ConnectionError
| Timeout
| JSONDecodeError
| AttributeError
| KeyError (key : string)
| ValueError (msg : string)
| NameError (name : string)
| OverflowError
| KeyboardInterrupt.

(** [except Exception] catches every class derived from [Exception];
    [KeyboardInterrupt] derives from [BaseException] only. *)
Definition is_Exception (e : exception) : bool :=
  match e with
  | KeyboardInterrupt => false
  | _ => true
  end.

Inductive pyresult (A : Type) : Type :=
| Returns (a : A)
| Raises (e : exception).
Arguments Returns {A} a.
Arguments Raises {A} e.

(** ** JSON payloads, as [resp.json()] hands them to the script

    Numbers are kept as integers: the script tests and prints them, it does
    not compute with them. *)

Inductive json : Type :=
| JNull
| JBool (b : bool)
| JNum (n : Z)
| JStr (s : string)
| JArr (items : list json)
| JObj (fields : list (string * json)).

(** First binding of a key in a list of labelled entries. *)
Fixpoint lookup {A : Type} (k : string) (l : list (string * A)) : option A :=
  match l with
  | [] => None
  | (k', v) :: rest => if String.eqb k k' then Some v else lookup k rest
  end.

(** [d.get(k, default)]: only a dict has the method. *)
Definition dict_get (d : json) (k : string) (default : json) : pyresult json :=
  match d with
  | JObj kvs =>
      Returns (match lookup k kvs with Some v => v | None => default end)
  | _ => Raises AttributeError
  end.

(** [v == 'ok'] *)
Definition is_str (v : json) (s : string) : bool :=
  match v with
  | JStr s' => String.eqb s' s
  | _ => false
  end.

(** Truth value of an object in an [if]. *)
Definition truthy (v : json) : bool :=
  match v with
  | JNull => false
  | JBool b => b
  | JNum n => negb (n =? 0)
  | JStr s => negb (String.eqb s EmptyString)
  | JArr items => match items with [] => false | _ => true end
  | JObj fields => match fields with [] => false | _ => true end
  end.

Record response : Type := mkResponse {
  status_code : Z;
  json_body : pyresult json   (* [resp.json()] raises on a malformed body *)
}.

(** ** Console output: one entry per call of [print]; an f-string is kept as
    its text and the value of its replacement field. *)

Inductive fvalue : Type :=
| FStr (s : string)
| FInt (n : Z)
| FJson (v : json)
| FExc (e : exception).

Inductive printed : Type :=
| Text (s : string)
| Fmt (before : string) (v : fvalue) (after : string).

(** ** Frames *)

Record DataFrame : Type := mkDataFrame {
  date : list Z;
  pm25 : list R;
  temperature : list R;
  humidity : list R;
  wind_speed : list R;
  month : option (list Z)      (* the column [analyze_air_quality_weather] adds *)
}.

Definition columns (df : DataFrame) : list string :=
  ["date"; "pm25"; "temperature"; "humidity"; "wind_speed"]%string
  ++ match month df with Some _ => ["month"%string] | None => [] end.

Definition nrows (df : DataFrame) : nat := List.length (date df).

Definition set_month (df : DataFrame) (ms : list Z) : DataFrame :=
  mkDataFrame (date df) (pm25 df) (temperature df) (humidity df)
    (wind_speed df) (Some ms).

(** ** The NumPy global generator

    [np.random.seed] installs a state that depends on the seed only; a draw
    of [size] samples returns an array of that size and the next state. *)

Record RandomState : Type := mkRandomState {
  rs_state : Type;
  rs_seed : Z -> rs_state;
  rs_normal : R -> R -> nat -> rs_state -> list R * rs_state;
  rs_exponential : R -> nat -> rs_state -> list R * rs_state;
  rs_normal_size : forall loc scale size s,
      List.length (fst (rs_normal loc scale size s)) = size;
  rs_exponential_size : forall scale size s,
      List.length (fst (rs_exponential scale size s)) = size
}.

(** A concrete generator, used to run the model: the state is a counter and
    the k-th sample of a draw is [loc + scale * ((state + k) mod 7 - 4)]
    (normal) or [scale * ((state + k) mod 5)] (exponential). *)
Definition counter_rng : RandomState :=
  {| rs_state := Z;
     rs_seed := fun seed => seed;
     rs_normal := fun loc scale size s =>
       (map (fun k => (loc + scale * IZR ((s + Z.of_nat k) mod 7 - 4))%R)
            (seq 0 size),
        s + Z.of_nat size);
     rs_exponential := fun scale size s =>
       (map (fun k => (scale * IZR ((s + Z.of_nat k) mod 5))%R) (seq 0 size),
        s + Z.of_nat size);
     rs_normal_size := fun loc scale size s =>
       eq_trans (length_map _ _) (length_seq size 0%nat);
     rs_exponential_size := fun scale size s =>
       eq_trans (length_map _ _) (length_seq size 0%nat) |}.

(** ** Time line *)

Definition day_us : Z := 86400000000.

(** The microseconds of [n] days. *)
Definition days_us (n : Z) : Z := n * day_us.

(** [timedelta(days=n)]: at most 999999999 days either way. *)
Definition timedelta_max_days : Z := 999999999.

Definition timedelta_days (n : Z) : pyresult Z :=
  if Z.abs n <=? timedelta_max_days then Returns (days_us n)
  else Raises OverflowError.

(** [datetime.min] is 0001-01-01 00:00:00, day -719162 of the epoch;
    [datetime.max] is 9999-12-31 23:59:59.999999, the last microsecond of
    day 2932896. *)
Definition datetime_min : Z := -719162 * day_us.
Definition datetime_max : Z := 2932897 * day_us - 1.

Definition is_datetime (t : Z) : bool :=
  (datetime_min <=? t) && (t <=? datetime_max).

(** [t - delta] on a [datetime] and a [timedelta]. *)
Definition datetime_sub (t delta : Z) : pyresult Z :=
  if is_datetime (t - delta) then Returns (t - delta)
  else Raises OverflowError.

(** The start date [now - timedelta(days=n_days)] can be computed. *)
Definition start_representable (now n_days : Z) : bool :=
  (Z.abs n_days <=? timedelta_max_days) && is_datetime (now - days_us n_days).

(** [pd.date_range(start, end, freq='D')]: the points [start + k days], [k]
    from 0, that do not pass [end]; none when [end] precedes [start]. *)
Definition date_range (start end_ : Z) : list Z :=
  map (fun k => start + Z.of_nat k * day_us)
      (seq 0 (Z.to_nat ((end_ - start) / day_us + 1))).

(** Day number of a timestamp (days since 1970-01-01). *)
Definition day_number (t : Z) : Z := t / day_us.

(** Month of a day number in the proleptic Gregorian calendar (the
    days-to-civil conversion over 400-year eras starting on 1 March). *)
Definition month_of_doe (doe : Z) : Z :=
  let yoe := (doe - doe / 1460 + doe / 36524 - doe / 146096) / 365 in
  let doy := doe - (365 * yoe + yoe / 4 - yoe / 100) in
  let mp := (5 * doy + 2) / 153 in
  if mp <? 10 then mp + 3 else mp - 9.

Definition month_of_day (d : Z) : Z :=
  month_of_doe ((d + 719468) mod 146097).

(** [.dt.month] on one timestamp and on a column. *)
Definition month_of (t : Z) : Z := month_of_day (day_number t).

Definition dt_month (ds : list Z) : list Z := map month_of ds.

(** ** NumPy array helpers *)

(** [np.arange(n)] *)
Definition np_arange (n : nat) : list Z := map Z.of_nat (seq 0 n).

(** [np.clip(x, lo, hi)] on one element: [minimum(maximum(x, lo), hi)]. *)
Definition np_clip (x lo hi : R) : R := Rmin (Rmax x lo) hi.

(** Elementwise sum of two arrays; the script only adds arrays of one
    length, [n_samples]. *)
Fixpoint vadd (xs ys : list R) : list R :=
  match xs, ys with
  | x :: xs', y :: ys' => (x + y)%R :: vadd xs' ys'
  | _, _ => []
  end.

(** ** Statistics, as pandas defines them on columns without missing values,
    in exact arithmetic (sums and quotients are not rounded) *)

Definition rsum (xs : list R) : R := fold_right Rplus 0%R xs.

Definition mean (xs : list R) : R := (rsum xs / INR (List.length xs))%R.

(** Sum over the rows of the products of the deviations from the means. *)
Definition sdev (xs ys : list R) : R :=
  rsum (map (fun p => ((fst p - mean xs) * (snd p - mean ys))%R)
            (combine xs ys)).

(** Pearson's coefficient of two columns of one length, in exact
    arithmetic. Not-a-number ([None]) with no observation at all
    ([min_periods = 1]) and when the divisor [sqrt (ssqdx * ssqdy)] is
    zero. *)
Definition pearson (xs ys : list R) : option R :=
  match xs with
  | [] => None
  | _ :: _ =>
      let divisor := sqrt (sdev xs xs * sdev ys ys) in
      if Req_dec_T divisor 0 then None else Some (sdev xs ys / divisor)%R
  end.

(** A correlation table: rows and columns are labelled by column names. *)
Definition CorrMatrix : Type := list (string * list (string * option R)).

(** [DataFrame.corr()] on a selection of float columns. *)
Definition corr (cols : list (string * list R)) : CorrMatrix :=
  map (fun cx =>
         (fst cx, map (fun cy => (fst cy, pearson (snd cx) (snd cy))) cols))
      cols.

(** Entry of a table at a pair of labels. *)
Definition corr_at (m : CorrMatrix) (x y : string) : option (option R) :=
  match lookup x m with
  | Some row => lookup y row
  | None => None
  end.

(** [groupby(key).mean()]: the rows are scanned in order, each adds its
    value to the running sum and count of its key; groups come out in
    ascending key order, each sum divided by its count. *)
Fixpoint group_add (k : Z) (v : R) (acc : list (Z * (R * nat)))
  : list (Z * (R * nat)) :=
  match acc with
  | [] => [(k, (v, 1%nat))]
  | (k', (s, c)) :: rest =>
      if k <? k' then (k, (v, 1%nat)) :: acc
      else if k =? k' then (k', ((s + v)%R, S c)) :: rest
      else (k', (s, c)) :: group_add k v rest
  end.

Definition group_sums (keys : list Z) (vals : list R) : list (Z * (R * nat)) :=
  fold_left (fun acc kv => group_add (fst kv) (snd kv) acc)
            (combine keys vals) [].

Definition groupby_mean (keys : list Z) (vals : list R) : list (Z * R) :=
  map (fun g => (fst g, (fst (snd g) / INR (snd (snd g)))%R))
      (group_sums keys vals).

(** The readings of the rows whose key is [k], in row order. *)
Definition group_values (k : Z) (keys : list Z) (vals : list R) : list R :=
  map snd (filter (fun kv => fst kv =? k) (combine keys vals)).

(** Selection of float columns by name, [df[names]]. *)
Definition correlation_cols : list string :=
  ["pm25"; "temperature"; "humidity"; "wind_speed"]%string.

Definition float_column (df : DataFrame) (name : string)
  : pyresult (list R) :=
  if String.eqb name "pm25" then Returns (pm25 df)
  else if String.eqb name "temperature" then Returns (temperature df)
  else if String.eqb name "humidity" then Returns (humidity df)
  else if String.eqb name "wind_speed" then Returns (wind_speed df)
  else Raises (KeyError name).

Fixpoint getitem_columns (df : DataFrame) (names : list string)
  : pyresult (list (string * list R)) :=
  match names with
  | [] => Returns []
  | name :: rest =>
      match float_column df name with
      | Raises e => Raises e
      | Returns col =>
          match getitem_columns df rest with
          | Raises e => Raises e
          | Returns cols => Returns ((name, col) :: cols)
          end
      end
  end.

(** ** The world and the monad of the script *)

Section Program.

Context (rs : RandomState).

Definition ref : Type := nat.

Record World : Type := mkWorld {
  clock : Z;                               (* what [datetime.now()] reads *)
  network : string -> pyresult response;   (* what a GET of a URL meets *)
  sent : list string;                      (* the requests sent so far *)
  stdout : list printed;
  rng : rs_state rs;                       (* NumPy's global generator *)
  frames : list DataFrame                  (* the frames alive, by reference *)
}.

Definition M (A : Type) : Type := World -> pyresult A * World.

Definition ret {A : Type} (a : A) : M A := fun w => (Returns a, w).

Definition bind {A B : Type} (m : M A) (k : A -> M B) : M B :=
  fun w =>
    match m w with
    | (Returns a, w') => k a w'
    | (Raises e, w') => (Raises e, w')
    end.

Definition lift {A : Type} (r : pyresult A) : M A := fun w => (r, w).

(** [try: body  except Exception as e: handler e] *)
Definition try_except_Exception {A : Type}
  (body : M A) (handler : exception -> M A) : M A :=
  fun w =>
    match body w with
    | (Raises e, w') =>
        if is_Exception e then handler e w' else (Raises e, w')
    | done => done
    end.

Notation "x <- c ;; k" := (bind c (fun x => k))
  (at level 61, c at next level, right associativity).
Notation "c ;; k" := (bind c (fun _ => k))
  (at level 61, right associativity).

Definition print (p : printed) : M unit :=
  fun w =>
    (Returns tt,
     mkWorld (clock w) (network w) (sent w) (stdout w ++ [p]) (rng w)
       (frames w)).

Definition datetime_now : M Z := fun w => (Returns (clock w), w).

Definition requests_get (url : string) : M response :=
  fun w =>
    (network w url,
     mkWorld (clock w) (network w) (sent w ++ [url]) (stdout w) (rng w)
       (frames w)).

Definition set_rng (s : rs_state rs) (w : World) : World :=
  mkWorld (clock w) (network w) (sent w) (stdout w) s (frames w).

Definition np_random_seed (seed : Z) : M unit :=
  fun w => (Returns tt, set_rng (rs_seed rs seed) w).

Definition np_random_normal (loc scale : R) (size : nat) : M (list R) :=
  fun w =>
    let draw := rs_normal rs loc scale size (rng w) in
    (Returns (fst draw), set_rng (snd draw) w).

Definition np_random_exponential (scale : R) (size : nat) : M (list R) :=
  fun w =>
    let draw := rs_exponential rs scale size (rng w) in
    (Returns (fst draw), set_rng (snd draw) w).

Definition set_frames (fs : list DataFrame) (w : World) : World :=
  mkWorld (clock w) (network w) (sent w) (stdout w) (rng w) fs.

(** [pd.DataFrame({...})]: the arrays must share one length; the new frame
    is a fresh object. *)
Definition pd_DataFrame (dates : list Z) (c1 c2 c3 c4 : list R) : M ref :=
  fun w =>
    let n := List.length dates in
    if ((List.length c1 =? n) && (List.length c2 =? n)
        && (List.length c3 =? n) && (List.length c4 =? n))%nat
    then (Returns (List.length (frames w)),
          set_frames (frames w ++ [mkDataFrame dates c1 c2 c3 c4 None]) w)
    else (Raises (ValueError "All arrays must be of the same length"), w).

(** Reading and updating the frame a reference denotes. A reference outside
    the store cannot arise in Python; the model raises there. *)
Definition frame_get (r : ref) : M DataFrame :=
  fun w =>
    match nth_error (frames w) r with
    | Some df => (Returns df, w)
    | None => (Raises (NameError "df"), w)
    end.

Fixpoint replace_nth {A : Type} (n : nat) (a : A) (l : list A) : list A :=
  match l, n with
  | [], _ => []
  | _ :: rest, O => a :: rest
  | x :: rest, S n' => x :: replace_nth n' a rest
  end.

Definition frame_set (r : ref) (df : DataFrame) : M unit :=
  fun w => (Returns tt, set_frames (replace_nth r df (frames w)) w).

(** ** The script *)

Local Open Scope string_scope.

(** [fetch_air_quality_data], lines 13-37. *)
Definition fetch_air_quality_data (city : string) : M json :=
  print (Fmt "Fetching air quality data for " (FStr city) "...") ;;
  let url := "https://api.waqi.info/feed/" ++ city ++ "/?token=demo" in
  try_except_Exception
    (resp <- requests_get url ;;
     if (status_code resp =? 200)%Z then
       data <- lift (json_body resp) ;;
       status <- lift (dict_get data "status" JNull) ;;
       if is_str status "ok" then
         lift (dict_get data "data" (JObj []))
       else
         message <- lift (dict_get data "message" (JStr "Unknown error")) ;;
         print (Fmt "API Error: " (FJson message) "") ;;
         ret JNull
     else
       print (Fmt "HTTP Error: " (FInt (status_code resp)) "") ;;
       ret JNull)
    (fun e =>
       print (Fmt "Request failed: " (FExc e) "") ;;
       ret JNull).

(** The block of [main] guarded by [if real_data:], lines 172-179. *)
Definition report_real_data (real_data : json) : M unit :=
  if truthy real_data then
    print (Text "Successfully fetched real-time data!") ;;
    city <- lift (dict_get real_data "city" (JObj [])) ;;
    name <- lift (dict_get city "name" (JStr "Unknown")) ;;
    print (Fmt "Station: " (FJson name) "") ;;
    aqi <- lift (dict_get real_data "aqi" (JStr "N/A")) ;;
    print (Fmt "Current AQI: " (FJson aqi) "") ;;
    print (Text (String "010"%char
                   "Note: For historical analysis, using sample dataset..."))
  else ret tt.

(** The opening of [main], lines 166-179. *)
Definition main_live_probe : M json :=
  print (Text "Air Quality and Weather Analysis") ;;
  print (Text "==================================================") ;;
  real_data <- fetch_air_quality_data "paris" ;;
  report_real_data real_data ;;
  ret real_data.

Local Close Scope string_scope.
Local Open Scope R_scope.

(** [create_sample_dataset], lines 39-84. *)
Definition create_sample_dataset (n_days : Z) : M ref :=
  print (Text "Creating sample dataset for analysis demonstration...") ;;
  end_date <- datetime_now ;;
  delta <- lift (timedelta_days n_days) ;;
  start_date <- lift (datetime_sub end_date delta) ;;
  let dates := date_range start_date end_date in
  np_random_seed 42 ;;
  let n_samples := List.length dates in
  let base_pm25 :=
    map (fun i => 25 + 10 * sin (2 * PI * IZR i / 365)) (np_arange n_samples) in
  noise <- np_random_normal 0 8 n_samples ;;
  let pm25 := vadd base_pm25 noise in
  let pm25 := map (fun x => np_clip x 5 80) pm25 in
  let base_temp :=
    map (fun i => 12 + 15 * sin (2 * PI * IZR i / 365)) (np_arange n_samples) in
  noise <- np_random_normal 0 5 n_samples ;;
  let temperature := vadd base_temp noise in
  noise <- np_random_normal 0 10 n_samples ;;
  let humidity := vadd (map (fun t => 70 - 0.5 * t) temperature) noise in
  let humidity := map (fun x => np_clip x 30 95) humidity in
  let wind_speed :=
    map (fun i => 3 + 2 * sin (2 * PI * IZR i / 365 + PI / 4))
        (np_arange n_samples) in
  noise <- np_random_exponential 1 n_samples ;;
  let wind_speed := vadd wind_speed noise in
  let wind_speed := map (fun x => np_clip x 0.5 12) wind_speed in
  pd_DataFrame dates pm25 temperature humidity wind_speed.

Local Close Scope R_scope.

(** [df.groupby('month')['pm25'].mean()] *)
Definition groupby_month_pm25_mean (df : DataFrame) : pyresult (list (Z * R)) :=
  match month df with
  | Some months => Returns (groupby_mean months (pm25 df))
  | None => Raises (KeyError "month")
  end.

(** [analyze_air_quality_weather], lines 86-100. The argument is the
    caller's frame: the assignment to [df['month']] updates that object. *)
Definition analyze_air_quality_weather (df : ref)
  : M (CorrMatrix * list (Z * R)) :=
  print (Text "Performing air quality and weather analysis...") ;;
  frame <- frame_get df ;;
  selected <- lift (getitem_columns frame correlation_cols) ;;
  let correlation := corr selected in
  frame <- frame_get df ;;
  frame_set df (set_month frame (dt_month (date frame))) ;;
  frame <- frame_get df ;;
  monthly_pm25 <- lift (groupby_month_pm25_mean frame) ;;
  ret (correlation, monthly_pm25).

End Program.

Arguments ret {rs A} a.
Arguments bind {rs A B} m k.
Arguments lift {rs A} r.
Arguments try_except_Exception {rs A} body handler.

(** ** What one call of the generator draws and builds

    The four draws of [create_sample_dataset] start from the state that
    [np.random.seed(42)] installs and follow one another. *)

Section Draws.

Context (rs : RandomState).

Definition draw_pm25 (n : nat) : list R * rs_state rs :=
  rs_normal rs 0 8 n (rs_seed rs 42).

Definition draw_temperature (n : nat) : list R * rs_state rs :=
  rs_normal rs 0 5 n (snd (draw_pm25 n)).

Definition draw_humidity (n : nat) : list R * rs_state rs :=
  rs_normal rs 0 10 n (snd (draw_temperature n)).

Definition draw_wind_speed (n : nat) : list R * rs_state rs :=
  rs_exponential rs 1 n (snd (draw_humidity n)).

Local Open Scope R_scope.

Definition sample_pm25 (n : nat) : list R :=
  map (fun x => np_clip x 5 80)
      (vadd (map (fun i => 25 + 10 * sin (2 * PI * IZR i / 365)) (np_arange n))
            (fst (draw_pm25 n))).

Definition sample_temperature (n : nat) : list R :=
  vadd (map (fun i => 12 + 15 * sin (2 * PI * IZR i / 365)) (np_arange n))
       (fst (draw_temperature n)).

Definition sample_humidity (n : nat) : list R :=
  map (fun x => np_clip x 30 95)
      (vadd (map (fun t => 70 - 0.5 * t) (sample_temperature n))
            (fst (draw_humidity n))).

Definition sample_wind_speed (n : nat) : list R :=
  map (fun x => np_clip x 0.5 12)
      (vadd (map (fun i => 3 + 2 * sin (2 * PI * IZR i / 365 + PI / 4))
                 (np_arange n))
            (fst (draw_wind_speed n))).

Local Close Scope R_scope.

(** The frame built at time [now] for [n_days]. *)
Definition sample_frame (now n_days : Z) : DataFrame :=
  let dates := date_range (now - days_us n_days) now in
  let n := List.length dates in
  mkDataFrame dates (sample_pm25 n) (sample_temperature n)
    (sample_humidity n) (sample_wind_speed n) None.

End Draws.

(** ** Worlds to run the model in *)

Definition offline (url : string) : pyresult response := Raises ConnectionError.

(** 2025-11-04 13:16:00, nothing printed, nothing sent, no frame alive. *)
Definition quiet_world : World counter_rng :=
  mkWorld counter_rng 1762262160000000 offline [] [] 0 [].

(** Noon of 30 January 2025, one line printed, the generator advanced, one
    frame alive. *)
Definition earlier_world : World counter_rng :=
  mkWorld counter_rng 1738238400000000 offline [] [Text "started"] 17
    [mkDataFrame [] [] [] [] [] None].

(** The frame a reference denotes in a world. *)
Definition frame_at {rs : RandomState} (w : World rs) (r : ref) : option DataFrame :=
  nth_error (frames rs w) r.


(** A frame as pandas keeps it: every column has one entry per row. *)
Definition well_formed (df : DataFrame) : Prop :=
  List.length (pm25 df) = nrows df
  /\ List.length (temperature df) = nrows df
  /\ List.length (humidity df) = nrows df
  /\ List.length (wind_speed df) = nrows df
  /\ match month df with
     | Some months => List.length months = nrows df
     | None => True
     end.

(** The four signal columns of a frame, as [df[correlation_cols]] lists
    them. *)
Definition signal_columns (df : DataFrame) : list (string * list R) :=
  [("pm25", pm25 df); ("temperature", temperature df);
   ("humidity", humidity df); ("wind_speed", wind_speed df)]%string.

(** A column that takes one value only (in particular, an empty one). *)
Definition constant_column (xs : list R) : Prop :=
  forall x y, In x xs -> In y xs -> x = y.

(** Three noons, 30 January to 1 February 2025; humidity is constant. *)
Definition three_days : DataFrame :=
  mkDataFrame
    [1738238400000000; 1738324800000000; 1738411200000000]
    [10; 20; 60]%R [1; 2; 4]%R [50; 50; 50]%R [3; 1; 2]%R None.

Definition no_days : DataFrame := mkDataFrame [] [] [] [] [] None.

(** A world holding the two frames, at references 0 and 1. *)
Definition analysis_world : World counter_rng :=
  mkWorld counter_rng 1762262160000000 offline [] [] 0 [three_days; no_days].

(** Bookkeeping of the grouping: the keys recorded so far, the sum and count
    recorded for a key, the scan of the rows, the readings of a key. *)
Definition keys (acc : list (Z * (R * nat))) : list Z := map fst acc.

(** Sum and count recorded for a key, [(0, 0)] when it is absent. *)
Fixpoint tally (k : Z) (acc : list (Z * (R * nat))) : R * nat :=
  match acc with
  | [] => (0%R, 0%nat)
  | (k', sc) :: rest => if k =? k' then sc else tally k rest
  end.

Definition group_fold (rows : list (Z * R)) (acc : list (Z * (R * nat)))
  : list (Z * (R * nat)) :=
  fold_left (fun acc kv => group_add (fst kv) (snd kv) acc) rows acc.

Definition readings (k : Z) (rows : list (Z * R)) : list R :=
  map snd (filter (fun kv => fst kv =? k) rows).

(** The address the probe requests for a city. *)
Definition feed_url (city : string) : string :=
  ("https://api.waqi.info/feed/" ++ city ++ "/?token=demo")%string.

(** The [status] field of a payload, when it is an object that has one. *)
Definition status_field (data : json) : option json :=
  match data with
  | JObj fields => lookup "status"%string fields
  | _ => None
  end.

(** Worlds whose service answers every request in one way. *)
Definition answering (o : pyresult response) : World counter_rng :=
  mkWorld counter_rng 1762262160000000 (fun _ => o) [] [] 0 [].

Definition server_error : pyresult response :=
  Returns (mkResponse 500 (Raises JSONDecodeError)).

Definition api_error : pyresult response :=
  Returns (mkResponse 200
             (Returns (JObj [("status", JStr "error");
                             ("data", JStr "Invalid key")]%string))).

Definition ok_without_data : pyresult response :=
  Returns (mkResponse 200 (Returns (JObj [("status", JStr "ok")]%string))).

(** The world once the probe has announced itself and sent its request. *)
Definition probing (rs : RandomState) (city : string) (w : World rs)
  : World rs :=
  mkWorld rs (clock rs w) (network rs w) (sent rs w ++ [feed_url city])
    (stdout rs w ++ [Fmt "Fetching air quality data for " (FStr city) "..."])
    (rng rs w) (frames rs w).

(** The same world with one more line printed. *)
Definition logged (rs : RandomState) (p : printed) (w : World rs) : World rs :=
  mkWorld rs (clock rs w) (network rs w) (sent rs w) (stdout rs w ++ [p])
    (rng rs w) (frames rs w).

(** ** Further worlds, answers and bookkeeping *)

(** A generator whose every sample is the mean of its distribution. *)
Definition mean_rng : RandomState :=
  {| rs_state := unit;
     rs_seed := fun _ => tt;
     rs_normal := fun loc scale size s => (repeat loc size, s);
     rs_exponential := fun scale size s => (repeat scale size, s);
     rs_normal_size := fun loc scale size s => repeat_length loc size;
     rs_exponential_size := fun scale size s => repeat_length scale size |}.

Definition mean_world : World mean_rng :=
  mkWorld mean_rng 1762262160000000 offline [] [] tt [].

(** More answers of the service. *)
Definition paris_reading : json :=
  JObj [("aqi", JNum 42); ("city", JObj [("name", JStr "Paris")])]%string.

Definition ok_with_reading : pyresult response :=
  Returns (mkResponse 200
             (Returns (JObj [("status", JStr "ok");
                             ("data", paris_reading)]%string))).

Definition ok_with_text : pyresult response :=
  Returns (mkResponse 200
             (Returns (JObj [("status", JStr "ok");
                             ("data", JStr "maintenance")]%string))).

Definition ok_with_city_name : pyresult response :=
  Returns (mkResponse 200
             (Returns (JObj [("status", JStr "ok");
                             ("data", JObj [("city", JStr "Paris")])]%string))).

Definition ok_with_idx_only : pyresult response :=
  Returns (mkResponse 200
             (Returns (JObj [("status", JStr "ok");
                             ("data", JObj [("idx", JNum 5722)])]%string))).

Definition garbled : pyresult response :=
  Returns (mkResponse 200 (Raises JSONDecodeError)).

Definition array_payload : pyresult response :=
  Returns (mkResponse 200 (Returns (JArr []))).

(** One observation, at noon of 30 January 2025. *)
Definition one_day : DataFrame :=
  mkDataFrame [1738238400000000] [10]%R [1]%R [50]%R [3]%R None.

Definition one_day_world : World counter_rng :=
  mkWorld counter_rng 1762262160000000 offline [] [] 0 [one_day].


(** Two analyses of one frame in a row. *)
Definition analyze_twice (rs : RandomState) (df : ref)
  : M rs ((CorrMatrix * list (Z * R)) * (CorrMatrix * list (Z * R))) :=
  bind (analyze_air_quality_weather rs df)
       (fun first => bind (analyze_air_quality_weather rs df)
                          (fun second => ret (first, second))).

(** The number of rows recorded by a grouping. *)
Definition recorded_count (acc : list (Z * (R * nat))) : nat :=
  fold_right Nat.add 0%nat (map (fun g => snd (snd g)) acc).

(** The seasonal part of PM2.5 at index [i] (line 58). *)
Definition base_pm25 (i : Z) : R := (25 + 10 * sin (2 * PI * IZR i / 365))%R.

Definition ok_with_empty_list : pyresult response :=
  Returns (mkResponse 200
             (Returns (JObj [("status", JStr "ok");
                             ("data", JArr [])]%string))).

(** Every frame alive is well formed. *)
Definition store_well_formed {rs : RandomState} (w : World rs) : Prop :=
  forall r df, frame_at w r = Some df -> well_formed df.

(** ** The correlation in binary64

    [DataFrame.corr()] as pandas runs it on two [float64] columns: one pass
    of Welford's updates over the rows where both values are numbers, then
    [covxy / sqrt (ssqdm_x * ssqdm_y)], clipped to [-1, 1]; not-a-number
    without an observation or with a zero divisor. *)

Module Float64.

Import PrimFloat.

Record welford : Type := mkWelford {
  nobs : float;        (* the row count, exact in binary64 below 2^53 *)
  meanx : float;
  meany : float;
  ssqdm_x : float;
  ssqdm_y : float;
  covxy : float
}.

Definition welford_step (s : welford) (v : float * float) : welford :=
  let vx := fst v in
  let vy := snd v in
  if (is_nan vx || is_nan vy)%bool then s
  else
    let n := (nobs s + 1)%float in
    let dx := (vx - meanx s)%float in
    let dy := (vy - meany s)%float in
    let mx := (meanx s + 1 / n * dx)%float in
    let my := (meany s + 1 / n * dy)%float in
    mkWelford n mx my
      (ssqdm_x s + (vx - mx) * dx)%float
      (ssqdm_y s + (vy - my) * dy)%float
      (covxy s + (vx - mx) * dy)%float.

Definition nancorr (xs ys : list float) : float :=
  let s := fold_left welford_step (combine xs ys)
                     (mkWelford 0 0 0 0 0 0)%float in
  if (nobs s <? 1)%float then nan
  else
    let divisor := sqrt (ssqdm_x s * ssqdm_y s)%float in
    if (divisor =? 0)%float then nan
    else
      let val := (covxy s / divisor)%float in
      if (1 <? val)%float then 1%float
      else if (val <? -1)%float then (-1)%float
      else val.

(** The table of a selection of columns, and its entry at two labels. *)
Definition corr (cols : list (string * list float))
  : list (string * list (string * float)) :=
  map (fun cx =>
         (fst cx, map (fun cy => (fst cy, nancorr (snd cx) (snd cy))) cols))
      cols.

Definition corr_at (m : list (string * list (string * float)))
  (x y : string) : option float :=
  match lookup x m with
  | Some row => lookup y row
  | None => None
  end.




End Float64.

(** * Properties *)

(** ** Arrays and dates *)

Lemma vadd_length (xs ys : list R) :
  List.length ys = List.length xs ->
  List.length (vadd xs ys) = List.length xs.
Proof.
  revert ys; induction xs as [|x xs IH]; intros [|y ys]; simpl;
    try discriminate; auto.
Qed.

Lemma np_arange_length (n : nat) : List.length (np_arange n) = n.
Proof. unfold np_arange. now rewrite length_map, length_seq. Qed.

Lemma date_range_length (start end_ : Z) :
  List.length (date_range start end_)
  = Z.to_nat ((end_ - start) / day_us + 1).
Proof. unfold date_range. now rewrite length_map, length_seq. Qed.

Lemma date_range_span (now n_days : Z) :
  List.length (date_range (now - days_us n_days) now)
  = Z.to_nat (n_days + 1).
Proof.
  rewrite date_range_length. unfold days_us.
  replace (now - (now - n_days * day_us)) with (n_days * day_us) by ring.
  rewrite Z.div_mul; [reflexivity | discriminate].
Qed.


Section GeneratorFacts.

Context (rs : RandomState).

Lemma sample_pm25_length (n : nat) : List.length (sample_pm25 rs n) = n.
Proof.
  unfold sample_pm25, draw_pm25.
  rewrite length_map, vadd_length; rewrite length_map, np_arange_length; auto.
  apply rs_normal_size.
Qed.

Lemma sample_temperature_length (n : nat) :
  List.length (sample_temperature rs n) = n.
Proof.
  unfold sample_temperature, draw_temperature.
  rewrite vadd_length; rewrite length_map, np_arange_length; auto.
  apply rs_normal_size.
Qed.

Lemma sample_humidity_length (n : nat) :
  List.length (sample_humidity rs n) = n.
Proof.
  unfold sample_humidity, draw_humidity.
  rewrite length_map, vadd_length;
    rewrite length_map, sample_temperature_length; auto.
  apply rs_normal_size.
Qed.

Lemma sample_wind_speed_length (n : nat) :
  List.length (sample_wind_speed rs n) = n.
Proof.
  unfold sample_wind_speed, draw_wind_speed.
  rewrite length_map, vadd_length; rewrite length_map, np_arange_length; auto.
  apply rs_exponential_size.
Qed.

(** One statement of the script run in a world whose fields are known. *)
Ltac run_step :=
  unfold bind at 1;
  first [ progress unfold print at 1
        | progress unfold datetime_now at 1
        | progress unfold np_random_seed at 1
        | progress unfold np_random_normal at 1
        | progress unfold np_random_exponential at 1 ];
  cbv beta iota zeta;
  cbn [clock network sent stdout rng frames fst snd set_rng].

Lemma start_representable_spec (now n_days : Z) :
  start_representable now n_days = true ->
  timedelta_days n_days = Returns (days_us n_days)
  /\ datetime_sub now (days_us n_days) = Returns (now - days_us n_days).
Proof.
  unfold start_representable, timedelta_days, datetime_sub.
  intros H. apply andb_prop in H as [-> ->]. split; reflexivity.
Qed.

(** One call of the generator whose start date can be computed, in closed
    form: it prints its progress line, reseeds and advances the global
    generator, and allocates the frame [sample_frame]. *)
Lemma create_sample_dataset_run (n_days : Z) (w : World rs) :
  start_representable (clock rs w) n_days = true ->
  create_sample_dataset rs n_days w
  = (Returns (List.length (frames rs w)),
     mkWorld rs (clock rs w) (network rs w) (sent rs w)
       (stdout rs w
        ++ [Text "Creating sample dataset for analysis demonstration..."])
       (snd (draw_wind_speed rs (Z.to_nat (n_days + 1))))
       (frames rs w ++ [sample_frame rs (clock rs w) n_days])).
Proof.
  intros Hstart.
  destruct (start_representable_spec _ _ Hstart) as [Hdelta Hsub].
  unfold create_sample_dataset.
  do 2 run_step.
  unfold bind at 1. unfold lift at 1. rewrite Hdelta.
  unfold bind at 1. unfold lift at 1. rewrite Hsub.
  do 5 run_step.
  unfold pd_DataFrame, set_frames, set_rng.
  cbn [clock network sent stdout rng frames fst snd].
  set (dates := date_range (clock rs w - days_us n_days) (clock rs w)).
  assert (Hn : List.length dates = Z.to_nat (n_days + 1))
    by apply date_range_span.
  pose proof (sample_pm25_length (List.length dates)) as H1.
  pose proof (sample_temperature_length (List.length dates)) as H2.
  pose proof (sample_humidity_length (List.length dates)) as H3.
  pose proof (sample_wind_speed_length (List.length dates)) as H4.
  unfold sample_pm25, sample_humidity, sample_wind_speed in H1, H3, H4.
  unfold sample_temperature in H2, H3.
  unfold draw_wind_speed, draw_humidity, draw_temperature, draw_pm25
    in H1, H2, H3, H4.
  rewrite H1, H2, H3, H4, Nat.eqb_refl. cbn [andb].
  unfold sample_frame. fold dates. rewrite <- Hn. reflexivity.
Qed.

(** One call whose start date cannot be computed: line 48 raises
    [OverflowError]; the progress line is printed, nothing else happened
    (the generator is not reseeded, no frame is built). *)
Lemma create_sample_dataset_overflow (n_days : Z) (w : World rs) :
  start_representable (clock rs w) n_days = false ->
  create_sample_dataset rs n_days w
  = (Raises OverflowError,
     mkWorld rs (clock rs w) (network rs w) (sent rs w)
       (stdout rs w
        ++ [Text "Creating sample dataset for analysis demonstration..."])
       (rng rs w) (frames rs w)).
Proof.
  intros Hstart. unfold create_sample_dataset.
  do 2 run_step.
  unfold bind at 1. unfold lift at 1.
  unfold start_representable in Hstart. unfold timedelta_days.
  destruct (Z.abs n_days <=? timedelta_max_days); [|reflexivity].
  cbn [andb] in Hstart.
  unfold bind at 1. unfold lift at 1. unfold datetime_sub.
  rewrite Hstart. reflexivity.
Qed.

End GeneratorFacts.

(** ** The generated series *)





Lemma frame_at_new (rs : RandomState) (w w' : World rs) (df : DataFrame) :
  frames rs w' = frames rs w ++ [df] ->
  frame_at w' (List.length (frames rs w)) = Some df.
Proof.
  intros E. unfold frame_at. rewrite E.
  now rewrite nth_error_app2, Nat.sub_diag by lia.
Qed.







(** ** Clamp ranges *)

Lemma np_clip_bounds (x lo hi : R) :
  (lo <= hi)%R -> (lo <= np_clip x lo hi <= hi)%R.
Proof.
  intros H. unfold np_clip, Rmin, Rmax.
  destruct (Rle_dec x lo); destruct (Rle_dec _ hi); lra.
Qed.

Lemma Forall_np_clip (lo hi : R) (xs : list R) :
  (lo <= hi)%R ->
  Forall (fun x => (lo <= x <= hi)%R) (map (fun x => np_clip x lo hi) xs).
Proof.
  intros H. apply Forall_forall. intros y Hy.
  apply in_map_iff in Hy as (x & <- & _). now apply np_clip_bounds.
Qed.

(** C2. Whatever the day count, the clock and the random draws, the
    frame of a call whose start date can be computed keeps PM2.5 within
    [5, 80], humidity within [30, 95] and wind speed within [0.5, 12];
    temperature is not clamped: it is the seasonal sinusoid plus the drawn
    noise, as it is. *)
Theorem create_sample_dataset_clamped
  (rs : RandomState) (n_days : Z) (w : World rs) :
  start_representable (clock rs w) n_days = true ->
  exists df w',
    create_sample_dataset rs n_days w
    = (Returns (List.length (frames rs w)), w')
    /\ frame_at w' (List.length (frames rs w)) = Some df
    /\ Forall (fun x => 5 <= x <= 80)%R (pm25 df)
    /\ Forall (fun x => 30 <= x <= 95)%R (humidity df)
    /\ Forall (fun x => 0.5 <= x <= 12)%R (wind_speed df)
    /\ temperature df
       = vadd (map (fun i => 12 + 15 * sin (2 * PI * IZR i / 365))%R
                   (np_arange (nrows df)))
              (fst (draw_temperature rs (nrows df))).
Proof.
  intros Hstart. rewrite create_sample_dataset_run by exact Hstart.
  exists (sample_frame rs (clock rs w) n_days). eexists.
  split; [reflexivity|]. split; [now apply frame_at_new|].
  unfold sample_frame, nrows. cbn [date pm25 temperature humidity wind_speed].
  split; [apply Forall_np_clip; lra|].
  split; [apply Forall_np_clip; lra|].
  split; [apply Forall_np_clip; lra|].
  reflexivity.
Qed.

Lemma create_sample_dataset_clamped_witness :
  exists df w',
    create_sample_dataset counter_rng 3 quiet_world
    = (Returns (List.length (frames counter_rng quiet_world)), w')
    /\ frame_at w' (List.length (frames counter_rng quiet_world)) = Some df
    /\ Forall (fun x => 5 <= x <= 80)%R (pm25 df)
    /\ Forall (fun x => 30 <= x <= 95)%R (humidity df)
    /\ Forall (fun x => 0.5 <= x <= 12)%R (wind_speed df)
    /\ temperature df
       = vadd (map (fun i => 12 + 15 * sin (2 * PI * IZR i / 365))%R
                   (np_arange (nrows df)))
              (fst (draw_temperature counter_rng (nrows df))).
Proof.
  apply (create_sample_dataset_clamped counter_rng 3 quiet_world).
  reflexivity.
Defined.

(** Temperature does leave the clamp ranges of the other signals: with the
    counter generator the only temperature of a one-observation series is
    -3, below 0.5, 5 and 30. *)
Lemma temperature_outside_clamp_ranges :
  temperature (sample_frame counter_rng 1762262160000000 0) = [(-3)%R].
Proof.
  unfold sample_frame. cbn [temperature].
  rewrite date_range_span. change (Z.to_nat (0 + 1)) with 1%nat.
  unfold sample_temperature, draw_temperature, draw_pm25, np_arange.
  cbn [seq map vadd fst snd counter_rng rs_normal rs_seed Z.of_nat Nat.add].
  change ((42 + Z.pos (Pos.of_succ_nat 0) + 0) mod 7 - 4) with (-3).
  change (IZR 0) with 0%R.
  f_equal. rewrite Rmult_0_r. unfold Rdiv. rewrite Rmult_0_l, sin_0. lra.
Qed.

(** What the generator builds is a frame as pandas keeps it, and for a
    negative day count it is the frame without rows. *)
Lemma sample_frame_well_formed (rs : RandomState) (now n_days : Z) :
  well_formed (sample_frame rs now n_days).
Proof.
  unfold well_formed, nrows, sample_frame.
  cbn [date pm25 temperature humidity wind_speed month].
  now rewrite sample_pm25_length, sample_temperature_length,
    sample_humidity_length, sample_wind_speed_length.
Qed.

Lemma sample_frame_negative_days (rs : RandomState) (now n_days : Z) :
  n_days < 0 -> sample_frame rs now n_days = no_days.
Proof.
  intros Hneg. unfold sample_frame.
  assert (E : date_range (now - days_us n_days) now = []).
  { apply length_zero_iff_nil. rewrite date_range_span. lia. }
  rewrite E. reflexivity.
Qed.

(** ** Reproducibility *)

(** C9. Two calls with the same day count, each with a start date that
    can be computed, build the same four signal columns, whatever the two
    worlds they run in (clock, state of the global generator, output so
    far, frames alive): the seed is installed anew by each call.  The dates
    follow the clock: those of one call are those of the other shifted by
    the difference of the clocks. *)
Theorem create_sample_dataset_reproducible
  (rs : RandomState) (n_days : Z) (w1 w2 : World rs) :
  start_representable (clock rs w1) n_days = true ->
  start_representable (clock rs w2) n_days = true ->
  exists df1 w1' df2 w2',
    create_sample_dataset rs n_days w1
    = (Returns (List.length (frames rs w1)), w1')
    /\ frame_at w1' (List.length (frames rs w1)) = Some df1
    /\ create_sample_dataset rs n_days w2
       = (Returns (List.length (frames rs w2)), w2')
    /\ frame_at w2' (List.length (frames rs w2)) = Some df2
    /\ pm25 df1 = pm25 df2
    /\ temperature df1 = temperature df2
    /\ humidity df1 = humidity df2
    /\ wind_speed df1 = wind_speed df2
    /\ date df1 = map (fun t => t + (clock rs w1 - clock rs w2)) (date df2).
Proof.
  intros Hstart1 Hstart2.
  rewrite (create_sample_dataset_run rs n_days w1 Hstart1).
  rewrite (create_sample_dataset_run rs n_days w2 Hstart2).
  exists (sample_frame rs (clock rs w1) n_days). eexists.
  exists (sample_frame rs (clock rs w2) n_days). eexists.
  split; [reflexivity|]. split; [now apply frame_at_new|].
  split; [reflexivity|]. split; [now apply frame_at_new|].
  unfold sample_frame. cbn [date pm25 temperature humidity wind_speed].
  rewrite !date_range_span. repeat split.
  unfold date_range, days_us. rewrite map_map.
  replace (clock rs w1 - (clock rs w1 - n_days * day_us))
    with (clock rs w2 - (clock rs w2 - n_days * day_us)) by ring.
  apply map_ext. intros k. ring.
Qed.

Lemma create_sample_dataset_reproducible_witness :
  exists df1 w1' df2 w2',
    create_sample_dataset counter_rng 3 quiet_world
    = (Returns (List.length (frames counter_rng quiet_world)), w1')
    /\ frame_at w1' (List.length (frames counter_rng quiet_world)) = Some df1
    /\ create_sample_dataset counter_rng 3 earlier_world
       = (Returns (List.length (frames counter_rng earlier_world)), w2')
    /\ frame_at w2' (List.length (frames counter_rng earlier_world)) = Some df2
    /\ pm25 df1 = pm25 df2
    /\ temperature df1 = temperature df2
    /\ humidity df1 = humidity df2
    /\ wind_speed df1 = wind_speed df2
    /\ date df1
       = map (fun t => t + (clock counter_rng quiet_world
                            - clock counter_rng earlier_world))
             (date df2).
Proof.
  apply (create_sample_dataset_reproducible counter_rng 3 quiet_world
           earlier_world);
    reflexivity.
Defined.

(** ** The summary *)

Lemma replace_nth_length {A : Type} (n : nat) (a : A) (l : list A) :
  List.length (replace_nth n a l) = List.length l.
Proof.
  revert n; induction l as [|x l IH]; intros [|n]; simpl; auto.
Qed.

Lemma nth_error_replace_nth {A : Type} (n m : nat) (a : A) (l : list A) :
  nth_error (replace_nth n a l) m
  = if (m =? n)%nat
    then match nth_error l n with Some _ => Some a | None => None end
    else nth_error l m.
Proof.
  revert n m; induction l as [|x l IH]; intros n m.
  - destruct n, m; simpl; auto. now destruct (m =? n)%nat.
  - destruct n, m; simpl; auto.
Qed.

Lemma getitem_correlation_cols (df : DataFrame) :
  getitem_columns df correlation_cols = Returns (signal_columns df).
Proof. reflexivity. Qed.

(** One call of the analysis on a live frame, in closed form: it prints its
    progress line, stores the month column into the frame of the caller and
    returns the two tables; it never raises. *)
Lemma analyze_air_quality_weather_run
  (rs : RandomState) (w : World rs) (r : ref) (df : DataFrame) :
  frame_at w r = Some df ->
  analyze_air_quality_weather rs r w
  = (Returns (corr (signal_columns df),
              groupby_mean (dt_month (date df)) (pm25 df)),
     mkWorld rs (clock rs w) (network rs w) (sent rs w)
       (stdout rs w ++ [Text "Performing air quality and weather analysis..."])
       (rng rs w)
       (replace_nth r (set_month df (dt_month (date df))) (frames rs w))).
Proof.
  unfold frame_at. intros Hdf.
  unfold analyze_air_quality_weather, bind, print, frame_get, frame_set, lift,
    ret, set_frames.
  cbn [clock network sent stdout rng frames].
  rewrite Hdf, getitem_correlation_cols.
  cbn [clock network sent stdout rng frames].
  rewrite Hdf. cbn [clock network sent stdout rng frames].
  rewrite nth_error_replace_nth, Nat.eqb_refl, Hdf.
  reflexivity.
Qed.

(** ** Pearson's coefficient *)

Lemma sum_products_swap (a b : R) (xs ys : list R) :
  rsum (map (fun p => ((fst p - a) * (snd p - b))%R) (combine xs ys))
  = rsum (map (fun p => ((fst p - b) * (snd p - a))%R) (combine ys xs)).
Proof.
  revert ys; induction xs as [|x xs IH]; intros [|y ys]; simpl; auto.
  rewrite IH. ring.
Qed.

Lemma sdev_sym (xs ys : list R) : sdev xs ys = sdev ys xs.
Proof. unfold sdev. apply sum_products_swap. Qed.

Lemma sum_squares_nonneg (a : R) (xs : list R) :
  (0 <= rsum (map (fun p => (fst p - a) * (snd p - a)) (combine xs xs)))%R.
Proof.
  induction xs as [|x xs IH]; simpl; [lra|].
  pose proof (Rle_0_sqr (x - a)) as H. unfold Rsqr in H. lra.
Qed.

Lemma sdev_self_nonneg (xs : list R) : (0 <= sdev xs xs)%R.
Proof. apply sum_squares_nonneg. Qed.

Lemma sum_squares_zero (a : R) (xs : list R) :
  rsum (map (fun p => (fst p - a) * (snd p - a))%R (combine xs xs)) = 0%R
  <-> forall x, In x xs -> x = a.
Proof.
  induction xs as [|x xs IH]; simpl.
  - split; [intros _ y [] | reflexivity].
  - pose proof (sum_squares_nonneg a xs) as Hs.
    pose proof (Rle_0_sqr (x - a)) as Hx. unfold Rsqr in Hx.
    split.
    + intros H0.
      assert (Hx0 : ((x - a) * (x - a) = 0)%R) by lra.
      assert (Hs0 : rsum (map (fun p => (fst p - a) * (snd p - a))%R
                              (combine xs xs)) = 0%R) by lra.
      intros y [<- | Hy].
      * apply Rmult_integral in Hx0. lra.
      * now apply IH.
    + intros H.
      rewrite (proj2 IH) by (intros y Hy; apply H; now right).
      rewrite (H x) by now left. ring.
Qed.

Lemma rsum_constant (a : R) (xs : list R) :
  (forall x, In x xs -> x = a) -> rsum xs = (INR (List.length xs) * a)%R.
Proof.
  induction xs as [|x xs IH]; intros H.
  - simpl. ring.
  - change (rsum (x :: xs)) with (x + rsum xs)%R.
    change (List.length (x :: xs)) with (S (List.length xs)).
    rewrite S_INR, IH by (intros y Hy; apply H; now right).
    rewrite (H x) by now left. ring.
Qed.

(** The sum of squared deviations of a column vanishes exactly when the
    column is constant. *)
Lemma sdev_self_zero_iff (xs : list R) :
  sdev xs xs = 0%R <-> constant_column xs.
Proof.
  unfold sdev. rewrite sum_squares_zero. unfold constant_column. split.
  - intros H x y Hx Hy. now rewrite (H x Hx), (H y Hy).
  - intros H x Hx.
    assert (Hall : forall y, In y xs -> y = x) by (intros y Hy; now apply H).
    unfold mean. rewrite (rsum_constant x xs Hall).
    destruct xs as [|x0 xs']; [destruct Hx|].
    assert (INR (List.length (x0 :: xs')) <> 0)%R
      by (apply not_0_INR; discriminate).
    field. assumption.
Qed.

Lemma pearson_sym (xs ys : list R) : pearson xs ys = pearson ys xs.
Proof.
  assert (Hnil : forall zs, pearson zs [] = None).
  { intros [|z zs]; [reflexivity|]. unfold pearson.
    change (sdev [] []) with 0%R. rewrite Rmult_0_r, sqrt_0.
    destruct (Req_dec_T 0 0) as [_|H]; [reflexivity | now destruct H]. }
  destruct xs as [|x xs], ys as [|y ys];
    rewrite ?Hnil; try reflexivity.
  unfold pearson.
  rewrite (Rmult_comm (sdev (y :: ys) (y :: ys))), (sdev_sym (y :: ys) (x :: xs)).
  reflexivity.
Qed.

Lemma pearson_self (xs : list R) :
  (sdev xs xs <> 0%R -> pearson xs xs = Some 1%R)
  /\ (sdev xs xs = 0%R -> pearson xs xs = None).
Proof.
  pose proof (sdev_self_nonneg xs) as Hpos. split; intros H.
  - destruct xs as [|x xs]; [now destruct H|]. unfold pearson.
    rewrite sqrt_square by exact Hpos.
    destruct (Req_dec_T _ 0) as [E|_]; [now destruct H|].
    f_equal. now field.
  - destruct xs as [|x xs]; [reflexivity|]. unfold pearson.
    rewrite H, Rmult_0_r, sqrt_0.
    destruct (Req_dec_T 0 0) as [_|E]; [reflexivity | now destruct E].
Qed.

(** A constant column has no defined correlation with any column. *)
Lemma pearson_constant (xs ys : list R) :
  constant_column xs -> pearson xs ys = None.
Proof.
  intros H. apply sdev_self_zero_iff in H.
  destruct xs as [|x xs]; [reflexivity|]. unfold pearson.
  rewrite H, Rmult_0_l, sqrt_0.
  destruct (Req_dec_T 0 0) as [_|E]; [reflexivity | now destruct E].
Qed.

Ltac split_on_name name :=
  destruct (String.eqb name "pm25");
  [|destruct (String.eqb name "temperature");
    [|destruct (String.eqb name "humidity");
      [|destruct (String.eqb name "wind_speed")]]].

Lemma corr_at_signal_columns (df : DataFrame) (x y : string)
  (cx cy : list R) :
  float_column df x = Returns cx ->
  float_column df y = Returns cy ->
  corr_at (corr (signal_columns df)) x y = Some (pearson cx cy).
Proof.
  unfold float_column, corr_at, corr, signal_columns. cbn [map fst snd lookup].
  intros Hx Hy.
  split_on_name x; try discriminate; injection Hx as <-; cbn [lookup];
    split_on_name y; try discriminate; injection Hy as <-; reflexivity.
Qed.

Lemma float_column_signal (df : DataFrame) (x : string) :
  In x correlation_cols -> exists col, float_column df x = Returns col.
Proof.
  intros [<- | [<- | [<- | [<- | []]]]]; eexists; reflexivity.
Qed.




(** ** Calendar months *)

Lemma month_of_doe_range (doe : Z) :
  0 <= doe < 146097 -> 1 <= month_of_doe doe <= 12.
Proof.
  intros H. unfold month_of_doe.
  set (yoe := (doe - doe / 1460 + doe / 36524 - doe / 146096) / 365).
  set (mp := (5 * (doe - (365 * yoe + yoe / 4 - yoe / 100)) + 2) / 153).
  destruct (Z.ltb_spec mp 10); subst mp yoe;
    Z.div_mod_to_equations; lia.
Qed.

(** [.dt.month] yields a month number, 1 to 12. *)
Lemma month_of_range (t : Z) : 1 <= month_of t <= 12.
Proof.
  unfold month_of, month_of_day. apply month_of_doe_range.
  apply Z.mod_pos_bound. reflexivity.
Qed.

(** ** Grouping *)

Lemma group_add_keys (k : Z) (v : R) (acc : list (Z * (R * nat))) (x : Z) :
  In x (keys (group_add k v acc)) <-> x = k \/ In x (keys acc).
Proof.
  induction acc as [|[k' [s c]] rest IH]; simpl.
  - intuition.
  - destruct (Z.ltb_spec k k'); [simpl; intuition|].
    destruct (Z.eqb_spec k k'); simpl.
    + subst. intuition.
    + fold (keys (group_add k v rest)). rewrite IH.
      fold (keys rest). intuition.
Qed.

Lemma group_add_sorted (k : Z) (v : R) (acc : list (Z * (R * nat))) :
  StronglySorted Z.lt (keys acc) ->
  StronglySorted Z.lt (keys (group_add k v acc)).
Proof.
  induction acc as [|[k' [s c]] rest IH]; simpl; intros Hs.
  - repeat constructor.
  - apply StronglySorted_inv in Hs as [Hrest Hall].
    destruct (Z.ltb_spec k k').
    + simpl. constructor; [constructor; assumption|].
      constructor; [assumption|].
      eapply Forall_impl; [|exact Hall]. simpl. intros; lia.
    + destruct (Z.eqb_spec k k'); simpl.
      * constructor; assumption.
      * constructor; [apply IH; assumption|].
        apply Forall_forall. intros x Hx.
        apply group_add_keys in Hx as [->|Hx]; [lia|].
        rewrite Forall_forall in Hall. now apply Hall.
Qed.

Lemma tally_absent (k : Z) (acc : list (Z * (R * nat))) :
  ~ In k (keys acc) -> tally k acc = (0%R, 0%nat).
Proof.
  induction acc as [|[k' sc] rest IH]; simpl; intros H; [reflexivity|].
  destruct (Z.eqb_spec k k'); [subst; tauto|]. apply IH. tauto.
Qed.

Lemma tally_group_add (k : Z) (v : R) (acc : list (Z * (R * nat))) (x : Z) :
  StronglySorted Z.lt (keys acc) ->
  tally x (group_add k v acc)
  = if x =? k
    then ((fst (tally x acc) + v)%R, S (snd (tally x acc)))
    else tally x acc.
Proof.
  induction acc as [|[k' [s c]] rest IH]; simpl; intros Hs.
  - destruct (Z.eqb_spec x k); [|reflexivity]. f_equal. ring.
  - apply StronglySorted_inv in Hs as [Hrest Hall].
    destruct (Z.ltb_spec k k').
    + simpl. destruct (Z.eqb_spec x k); [|reflexivity].
      subst x. destruct (Z.eqb_spec k k'); [lia|].
      rewrite tally_absent; [simpl; f_equal; ring|].
      intros Hin. rewrite Forall_forall in Hall.
      specialize (Hall k Hin). lia.
    + destruct (Z.eqb_spec k k'); simpl.
      * subst k'. destruct (Z.eqb_spec x k); reflexivity.
      * rewrite IH by assumption.
        destruct (Z.eqb_spec x k'), (Z.eqb_spec x k); try reflexivity. lia.
Qed.

Lemma group_fold_spec (rows : list (Z * R)) :
  forall acc,
    StronglySorted Z.lt (keys acc) ->
    StronglySorted Z.lt (keys (group_fold rows acc))
    /\ (forall x, In x (keys (group_fold rows acc))
                  <-> In x (keys acc) \/ In x (map fst rows))
    /\ (forall x, tally x (group_fold rows acc)
                  = ((fst (tally x acc) + rsum (readings x rows))%R,
                     (snd (tally x acc) + List.length (readings x rows))%nat)).
Proof.
  induction rows as [|[k v] rows IH]; intros acc Hs.
  - simpl. split; [assumption|]. split; [intuition|].
    intros x. destruct (tally x acc) as [s c]. simpl.
    f_equal; [ring | lia].
  - change (group_fold ((k, v) :: rows) acc)
      with (group_fold rows (group_add k v acc)).
    destruct (IH (group_add k v acc) (group_add_sorted k v acc Hs))
      as (Hsorted & Hkeys & Htally).
    split; [assumption|]. split.
    + intros x. rewrite Hkeys, group_add_keys. simpl. intuition.
    + intros x. rewrite Htally, tally_group_add by assumption.
      unfold readings. cbn [filter fst].
      destruct (Z.eqb_spec k x) as [->|Hne].
      * rewrite Z.eqb_refl. cbn [map snd rsum fold_right List.length fst].
        fold (rsum (map snd (filter (fun kv => fst kv =? x) rows))).
        f_equal; [ring | lia].
      * destruct (Z.eqb_spec x k); [congruence|]. reflexivity.
Qed.

Lemma tally_In (acc : list (Z * (R * nat))) (k : Z) (sc : R * nat) :
  StronglySorted Z.lt (keys acc) -> In (k, sc) acc -> tally k acc = sc.
Proof.
  induction acc as [|[k' sc'] rest IH]; simpl; intros Hs Hin; [tauto|].
  apply StronglySorted_inv in Hs as [Hrest Hall].
  destruct Hin as [E|Hin].
  - injection E as -> ->. now rewrite Z.eqb_refl.
  - destruct (Z.eqb_spec k k') as [->|_]; [|now apply IH].
    rewrite Forall_forall in Hall.
    assert (k' < k') by (apply Hall; apply in_map_iff; now exists (k', sc)).
    lia.
Qed.

(** The means by group: the keys come in strictly ascending order, they are
    the keys of the rows, and the value at a key is the arithmetic mean of
    the readings of the rows with that key. *)
Lemma groupby_mean_spec (ks : list Z) (vals : list R) :
  List.length vals = List.length ks ->
  StronglySorted Z.lt (map fst (groupby_mean ks vals))
  /\ (forall k, In k (map fst (groupby_mean ks vals)) <-> In k ks)
  /\ (forall k v, In (k, v) (groupby_mean ks vals) ->
        group_values k ks vals <> []
        /\ v = mean (group_values k ks vals)).
Proof.
  intros Hlen. unfold groupby_mean, group_sums.
  fold (group_fold (combine ks vals) []).
  destruct (group_fold_spec (combine ks vals) [] (SSorted_nil _))
    as (Hsorted & Hkeys & Htally).
  rewrite map_map. cbn [fst]. fold (keys (group_fold (combine ks vals) [])).
  split; [assumption|]. split.
  - intros k. rewrite Hkeys. simpl.
    assert (E : map fst (combine ks vals) = ks).
    { clear - Hlen. revert vals Hlen.
      induction ks as [|k ks IH]; intros [|v vals] H; simpl in *;
        try discriminate; auto.
      f_equal. apply IH. lia. }
    rewrite E. tauto.
  - intros k v Hin. apply in_map_iff in Hin as ([k' [s c]] & E & Hin).
    cbn [fst snd] in E. injection E as -> <-.
    pose proof (tally_In _ _ _ Hsorted Hin) as Ht.
    rewrite Htally in Ht. cbn [tally fst snd] in Ht.
    injection Ht as Hs Hc.
    assert (Hne : group_values k ks vals <> []).
    { intros Hnil. unfold group_values in Hnil.
      apply map_eq_nil in Hnil.
      assert (Hk : In k (keys (group_fold (combine ks vals) [])))
        by (apply in_map_iff; now exists (k, (s, c))).
      apply Hkeys in Hk as [[]|Hk].
      apply in_map_iff in Hk as ([k0 v0] & E0 & Hin0). cbn in E0. subst k0.
      assert (Hf : In (k, v0) (filter (fun kv => fst kv =? k)
                                      (combine ks vals)))
        by (apply filter_In; split; [assumption | apply Z.eqb_refl]).
      rewrite Hnil in Hf. destruct Hf. }
    split; [assumption|].
    subst s c. change (readings k (combine ks vals))
      with (group_values k ks vals).
    unfold mean. now rewrite Rplus_0_l.
Qed.

(** ** The monthly aggregate *)

Lemma three_days_well_formed : well_formed three_days.
Proof. repeat split; reflexivity. Qed.

(** C4. On a live, well-formed frame the analysis returns a monthly table
    whose keys are strictly ascending (hence distinct), are month numbers
    1 to 12, and are exactly the months in which some date of the frame
    falls; the value at a month is the arithmetic mean (sum over count) of
    the PM2.5 readings of the rows dated in that month. *)
Theorem analyze_monthly_means
  (rs : RandomState) (w : World rs) (r : ref) (df : DataFrame) :
  frame_at w r = Some df ->
  well_formed df ->
  exists correlation monthly_pm25 w',
    analyze_air_quality_weather rs r w
    = (Returns (correlation, monthly_pm25), w')
    /\ StronglySorted Z.lt (map fst monthly_pm25)
    /\ Forall (fun m => 1 <= m <= 12) (map fst monthly_pm25)
    /\ (forall m, In m (map fst monthly_pm25)
                  <-> exists t, In t (date df) /\ month_of t = m)
    /\ (forall m v, In (m, v) monthly_pm25 ->
          group_values m (dt_month (date df)) (pm25 df) <> []
          /\ v = mean (group_values m (dt_month (date df)) (pm25 df))).
Proof.
  intros Hdf (Hpm25 & _). rewrite (analyze_air_quality_weather_run rs w r df Hdf).
  do 3 eexists. split; [reflexivity|].
  assert (Hlen : List.length (pm25 df) = List.length (dt_month (date df)))
    by (unfold dt_month; now rewrite length_map).
  destruct (groupby_mean_spec _ _ Hlen) as (Hsorted & Hkeys & Hmean).
  split; [assumption|].
  assert (Hmonths : forall m, In m (map fst (groupby_mean (dt_month (date df))
                                                            (pm25 df)))
                              <-> exists t, In t (date df) /\ month_of t = m).
  { intros m. rewrite Hkeys. unfold dt_month. rewrite in_map_iff.
    split; intros (t & H1 & H2); exists t; tauto. }
  split; [|split; assumption].
  apply Forall_forall. intros m Hm.
  apply Hmonths in Hm as (t & _ & <-). apply month_of_range.
Qed.

Lemma analyze_monthly_means_witness :
  frame_at analysis_world 0%nat = Some three_days
  /\ well_formed three_days
  /\ exists correlation monthly_pm25 w',
    analyze_air_quality_weather counter_rng 0%nat analysis_world
    = (Returns (correlation, monthly_pm25), w')
    /\ StronglySorted Z.lt (map fst monthly_pm25)
    /\ Forall (fun m => 1 <= m <= 12) (map fst monthly_pm25)
    /\ (forall m, In m (map fst monthly_pm25)
                  <-> exists t, In t (date three_days) /\ month_of t = m)
    /\ (forall m v, In (m, v) monthly_pm25 ->
          group_values m (dt_month (date three_days)) (pm25 three_days) <> []
          /\ v = mean (group_values m (dt_month (date three_days))
                                    (pm25 three_days))).
Proof.
  split; [reflexivity|]. split; [repeat split; reflexivity|].
  apply (analyze_monthly_means counter_rng analysis_world 0%nat three_days).
  - reflexivity.
  - repeat split; reflexivity.
Defined.

(** The monthly table of the three-day frame: January holds the mean of its
    two readings, February its single reading. *)
Lemma three_days_monthly :
  groupby_mean (dt_month (date three_days)) (pm25 three_days)
  = [(1, ((10 + 20) / INR 2)%R); (2, (60 / INR 1)%R)].
Proof. reflexivity. Qed.

(** ** The empty series *)

(** C6 (as the code behaves). An empty series is not refused: the
    analysis returns a correlation table whose sixteen entries are all
    not-a-number and an empty monthly table. *)
Theorem analyze_empty_series
  (rs : RandomState) (w : World rs) (r : ref) (df : DataFrame) :
  frame_at w r = Some df ->
  well_formed df ->
  nrows df = 0%nat ->
  exists correlation w',
    analyze_air_quality_weather rs r w = (Returns (correlation, []), w')
    /\ map fst correlation = correlation_cols
    /\ (forall x y, In x correlation_cols -> In y correlation_cols ->
          corr_at correlation x y = Some None).
Proof.
  intros Hdf (H1 & H2 & H3 & H4 & _) Hrows.
  rewrite (analyze_air_quality_weather_run rs w r df Hdf).
  unfold nrows in *. rewrite Hrows in *.
  apply length_zero_iff_nil in Hrows, H1, H2, H3, H4.
  rewrite Hrows. do 2 eexists. split; [reflexivity|].
  split; [reflexivity|].
  intros x y Hx Hy.
  destruct (float_column_signal df x Hx) as [cx Hcx].
  destruct (float_column_signal df y Hy) as [cy Hcy].
  rewrite (corr_at_signal_columns df x y cx cy Hcx Hcy). f_equal.
  assert (cx = []) as ->; [|reflexivity].
  unfold float_column in Hcx. rewrite H1, H2, H3, H4 in Hcx.
  split_on_name x; congruence.
Qed.

Lemma analyze_empty_series_witness :
  frame_at analysis_world 1%nat = Some no_days
  /\ well_formed no_days
  /\ nrows no_days = 0%nat
  /\ exists correlation w',
    analyze_air_quality_weather counter_rng 1%nat analysis_world
    = (Returns (correlation, []), w')
    /\ map fst correlation = correlation_cols
    /\ (forall x y, In x correlation_cols -> In y correlation_cols ->
          corr_at correlation x y = Some None).
Proof.
  split; [reflexivity|]. split; [repeat split; reflexivity|].
  split; [reflexivity|].
  apply (analyze_empty_series counter_rng analysis_world 1%nat no_days).
  - reflexivity.
  - repeat split; reflexivity.
  - reflexivity.
Defined.

(** C6 fails as stated: on the empty series the analysis raises nothing. *)
Lemma analyze_empty_series_returns :
  frame_at analysis_world 1%nat = Some no_days
  /\ nrows no_days = 0%nat
  /\ (exists correlation w',
        analyze_air_quality_weather counter_rng 1%nat analysis_world
        = (Returns (correlation, []), w'))
  /\ ~ (forall r df, frame_at analysis_world r = Some df ->
        nrows df = 0%nat ->
        exists e w',
          analyze_air_quality_weather counter_rng r analysis_world
          = (Raises e, w')).
Proof.
  split; [reflexivity|]. split; [reflexivity|]. split.
  - rewrite (analyze_air_quality_weather_run counter_rng analysis_world 1%nat
               no_days eq_refl).
    do 2 eexists. reflexivity.
  - intros H. destruct (H 1%nat no_days eq_refl eq_refl) as (e & w' & He).
    rewrite (analyze_air_quality_weather_run counter_rng analysis_world 1%nat
               no_days eq_refl) in He.
    discriminate.
Qed.

(** ** Effects of the analysis *)

(** C7 (as the code behaves). The analysis does write to the frame it is
    given: it stores a [month] column, the month of every date, into it
    (adding the column, or replacing one of that name). The dates and the
    four signal columns keep their values, no other frame is touched, and
    nothing else of the world changes but one line of output. *)
Theorem analyze_stores_month_column
  (rs : RandomState) (w : World rs) (r : ref) (df : DataFrame) :
  frame_at w r = Some df ->
  exists result w' df',
    analyze_air_quality_weather rs r w = (Returns result, w')
    /\ frame_at w' r = Some df'
    /\ month df' = Some (dt_month (date df))
    /\ columns df'
       = ["date"; "pm25"; "temperature"; "humidity"; "wind_speed";
          "month"]%string
    /\ date df' = date df
    /\ pm25 df' = pm25 df
    /\ temperature df' = temperature df
    /\ humidity df' = humidity df
    /\ wind_speed df' = wind_speed df
    /\ (forall r', r' <> r -> frame_at w' r' = frame_at w r')
    /\ stdout rs w'
       = stdout rs w ++ [Text "Performing air quality and weather analysis..."]
    /\ clock rs w' = clock rs w
    /\ sent rs w' = sent rs w
    /\ rng rs w' = rng rs w.
Proof.
  intros Hdf. rewrite (analyze_air_quality_weather_run rs w r df Hdf).
  do 2 eexists. exists (set_month df (dt_month (date df))).
  split; [reflexivity|]. split.
  - unfold frame_at in *. cbn [frames].
    now rewrite nth_error_replace_nth, Nat.eqb_refl, Hdf.
  - do 7 (split; [reflexivity|]). split; [|repeat split].
    intros r' Hr'. unfold frame_at. cbn [frames].
    rewrite nth_error_replace_nth.
    destruct (Nat.eqb_spec r' r); [contradiction | reflexivity].
Qed.

Lemma analyze_stores_month_column_witness :
  frame_at analysis_world 0%nat = Some three_days
  /\ exists result w' df',
    analyze_air_quality_weather counter_rng 0%nat analysis_world
    = (Returns result, w')
    /\ frame_at w' 0%nat = Some df'
    /\ month df' = Some (dt_month (date three_days))
    /\ columns df'
       = ["date"; "pm25"; "temperature"; "humidity"; "wind_speed";
          "month"]%string
    /\ date df' = date three_days
    /\ pm25 df' = pm25 three_days
    /\ temperature df' = temperature three_days
    /\ humidity df' = humidity three_days
    /\ wind_speed df' = wind_speed three_days
    /\ (forall r', r' <> 0%nat -> frame_at w' r' = frame_at analysis_world r')
    /\ stdout counter_rng w'
       = stdout counter_rng analysis_world
         ++ [Text "Performing air quality and weather analysis..."]
    /\ clock counter_rng w' = clock counter_rng analysis_world
    /\ sent counter_rng w' = sent counter_rng analysis_world
    /\ rng counter_rng w' = rng counter_rng analysis_world.
Proof.
  split; [reflexivity|].
  apply (analyze_stores_month_column counter_rng analysis_world 0%nat
           three_days).
  reflexivity.
Defined.

(** C7 fails as stated: after the call the frame of the caller has a sixth
    column, [month], that it did not have before. *)
Lemma analyze_changes_the_frame :
  exists result w' df',
    analyze_air_quality_weather counter_rng 0%nat analysis_world
    = (Returns result, w')
    /\ frame_at analysis_world 0%nat = Some three_days
    /\ frame_at w' 0%nat = Some df'
    /\ columns three_days
       = ["date"; "pm25"; "temperature"; "humidity"; "wind_speed"]%string
    /\ columns df'
       = ["date"; "pm25"; "temperature"; "humidity"; "wind_speed";
          "month"]%string
    /\ month df' = Some [1; 1; 2]
    /\ df' <> three_days.
Proof.
  rewrite (analyze_air_quality_weather_run counter_rng analysis_world 0%nat
             three_days eq_refl).
  do 2 eexists. exists (set_month three_days (dt_month (date three_days))).
  split; [reflexivity|]. do 4 (split; [reflexivity|]).
  split; [vm_compute; reflexivity|].
  intros E. apply (f_equal month) in E. discriminate.
Qed.

(** ** The live probe *)

Section ProbeFacts.

Context (rs : RandomState).

Lemma fetch_transport_exception (city : string) (w : World rs) (e : exception) :
  network rs w (feed_url city) = Raises e ->
  is_Exception e = true ->
  fetch_air_quality_data rs city w
  = (Returns JNull,
     logged rs (Fmt "Request failed: " (FExc e) "") (probing rs city w)).
Proof.
  intros Hnet He.
  unfold fetch_air_quality_data, bind, print, try_except_Exception,
    requests_get, ret.
  cbn [clock network sent stdout rng frames].
  fold (feed_url city). rewrite Hnet, He. reflexivity.
Qed.

Lemma fetch_http_error (city : string) (w : World rs) (resp : response) :
  network rs w (feed_url city) = Returns resp ->
  status_code resp <> 200 ->
  fetch_air_quality_data rs city w
  = (Returns JNull,
     logged rs (Fmt "HTTP Error: " (FInt (status_code resp)) "")
            (probing rs city w)).
Proof.
  intros Hnet Hcode.
  unfold fetch_air_quality_data, bind, print, try_except_Exception,
    requests_get, ret.
  cbn [clock network sent stdout rng frames].
  fold (feed_url city). rewrite Hnet.
  destruct (Z.eqb_spec (status_code resp) 200); [contradiction|].
  reflexivity.
Qed.

Lemma fetch_status_not_ok (city : string) (w : World rs) (resp : response)
  (data : json) :
  network rs w (feed_url city) = Returns resp ->
  json_body resp = Returns data ->
  status_field data <> Some (JStr "ok") ->
  exists line,
    fetch_air_quality_data rs city w
    = (Returns JNull, logged rs line (probing rs city w)).
Proof.
  intros Hnet Hbody Hstatus.
  destruct (Z.eq_dec (status_code resp) 200) as [Hcode|Hcode];
    [|eexists; apply (fetch_http_error city w resp Hnet Hcode)].
  unfold fetch_air_quality_data, bind, print, try_except_Exception,
    requests_get, ret, lift.
  cbn [clock network sent stdout rng frames].
  fold (feed_url city). rewrite Hnet, Hcode, Hbody. cbn [Z.eqb Pos.eqb].
  destruct data as [| b | n | s | items | fields];
    try (eexists; reflexivity).
  cbn [dict_get status_field] in *.
  destruct (lookup "status" fields) as [status|] eqn:Es.
  - destruct status as [| b | n | s | items | fields'];
      try (eexists; reflexivity).
    cbn [is_str]. destruct (String.eqb_spec s "ok") as [->|Hne];
      [congruence|]. eexists; reflexivity.
  - eexists; reflexivity.
Qed.

(** What [except Exception] does not catch goes through to the caller. *)
Lemma fetch_interrupted (city : string) (w : World rs) :
  network rs w (feed_url city) = Raises KeyboardInterrupt ->
  fetch_air_quality_data rs city w
  = (Raises KeyboardInterrupt, probing rs city w).
Proof.
  intros Hnet.
  unfold fetch_air_quality_data, bind, print, try_except_Exception,
    requests_get, ret.
  cbn [clock network sent stdout rng frames].
  fold (feed_url city). rewrite Hnet. reflexivity.
Qed.

(** The reading of a successful answer is returned as it is. *)
Lemma fetch_reading (city : string) (w : World rs) (resp : response)
  (fields : list (string * json)) (reading : json) :
  network rs w (feed_url city) = Returns resp ->
  status_code resp = 200 ->
  json_body resp = Returns (JObj fields) ->
  lookup "status"%string fields = Some (JStr "ok") ->
  lookup "data"%string fields = Some reading ->
  fetch_air_quality_data rs city w = (Returns reading, probing rs city w).
Proof.
  intros Hnet Hcode Hbody Hstatus Hdata.
  unfold fetch_air_quality_data, bind, print, try_except_Exception,
    requests_get, ret, lift.
  cbn [clock network sent stdout rng frames].
  fold (feed_url city). rewrite Hnet, Hcode, Hbody.
  cbn [Z.eqb Pos.eqb dict_get]. rewrite Hstatus, Hdata. reflexivity.
Qed.

End ProbeFacts.

(** C8. The probe sends exactly one request and, when that request meets
    an exception caught by [except Exception], an HTTP status other than
    200, or a payload whose status field is not ["ok"], it returns [None]:
    it raises nothing, and logs one line after its announcement. *)
Theorem fetch_failure_is_absence
  (rs : RandomState) (city : string) (w : World rs) :
  (forall e,
      network rs w (feed_url city) = Raises e -> is_Exception e = true ->
      exists w', fetch_air_quality_data rs city w = (Returns JNull, w')
                 /\ sent rs w' = sent rs w ++ [feed_url city]
                 /\ List.length (stdout rs w')
                    = (List.length (stdout rs w) + 2)%nat)
  /\ (forall resp,
      network rs w (feed_url city) = Returns resp ->
      status_code resp <> 200 ->
      exists w', fetch_air_quality_data rs city w = (Returns JNull, w')
                 /\ sent rs w' = sent rs w ++ [feed_url city]
                 /\ List.length (stdout rs w')
                    = (List.length (stdout rs w) + 2)%nat)
  /\ (forall resp data,
      network rs w (feed_url city) = Returns resp ->
      json_body resp = Returns data ->
      status_field data <> Some (JStr "ok") ->
      exists w', fetch_air_quality_data rs city w = (Returns JNull, w')
                 /\ sent rs w' = sent rs w ++ [feed_url city]
                 /\ List.length (stdout rs w')
                    = (List.length (stdout rs w) + 2)%nat).
Proof.
  split; [|split].
  - intros e Hnet He. rewrite (fetch_transport_exception rs city w e Hnet He).
    eexists. split; [reflexivity|]. split; [reflexivity|].
    cbn [logged probing stdout]. rewrite !length_app. simpl. lia.
  - intros resp Hnet Hcode.
    rewrite (fetch_http_error rs city w resp Hnet Hcode).
    eexists. split; [reflexivity|]. split; [reflexivity|].
    cbn [logged probing stdout]. rewrite !length_app. simpl. lia.
  - intros resp data Hnet Hbody Hstatus.
    destruct (fetch_status_not_ok rs city w resp data Hnet Hbody Hstatus)
      as [line ->].
    eexists. split; [reflexivity|]. split; [reflexivity|].
    cbn [logged probing stdout]. rewrite !length_app. simpl. lia.
Qed.

Lemma fetch_failure_is_absence_witness :
  (exists w',
      fetch_air_quality_data counter_rng "paris" quiet_world
      = (Returns JNull, w')
      /\ sent counter_rng w' = [feed_url "paris"])
  /\ (exists w',
      fetch_air_quality_data counter_rng "paris" (answering server_error)
      = (Returns JNull, w')
      /\ sent counter_rng w' = [feed_url "paris"])
  /\ (exists w',
      fetch_air_quality_data counter_rng "paris" (answering api_error)
      = (Returns JNull, w')
      /\ sent counter_rng w' = [feed_url "paris"]).
Proof.
  split; [|split].
  - destruct (proj1 (fetch_failure_is_absence counter_rng "paris" quiet_world)
                ConnectionError eq_refl eq_refl) as (w' & H1 & H2 & _).
    exists w'. split; assumption.
  - destruct (proj1 (proj2 (fetch_failure_is_absence counter_rng "paris"
                              (answering server_error)))
                (mkResponse 500 (Raises JSONDecodeError)) eq_refl
                ltac:(discriminate)) as (w' & H1 & H2 & _).
    exists w'. split; assumption.
  - destruct (proj2 (proj2 (fetch_failure_is_absence counter_rng "paris"
                              (answering api_error)))
                _ _ eq_refl eq_refl ltac:(discriminate)) as (w' & H1 & H2 & _).
    exists w'. split; assumption.
Defined.

(** C10. When the request meets HTTP 200 and a payload whose status is
    ["ok"] but which has no [data] field, the probe returns the empty dict,
    not [None]; the empty dict is false in [if real_data:], so [main] skips
    its report exactly as it does for [None], and prints nothing beyond its
    two banner lines and the announcement of the probe. *)
Theorem fetch_ok_without_data_is_empty_record
  (rs : RandomState) (w : World rs) (resp : response)
  (fields : list (string * json)) :
  network rs w (feed_url "paris") = Returns resp ->
  status_code resp = 200 ->
  json_body resp = Returns (JObj fields) ->
  lookup "status"%string fields = Some (JStr "ok") ->
  lookup "data"%string fields = None ->
  (exists w1, fetch_air_quality_data rs "paris" w = (Returns (JObj []), w1))
  /\ JObj [] <> JNull
  /\ truthy (JObj []) = truthy JNull
  /\ (forall w0, report_real_data rs (JObj []) w0
                 = report_real_data rs JNull w0)
  /\ exists w',
      main_live_probe rs w = (Returns (JObj []), w')
      /\ stdout rs w'
         = stdout rs w
           ++ [Text "Air Quality and Weather Analysis";
               Text "==================================================";
               Fmt "Fetching air quality data for " (FStr "paris") "..."]
      /\ sent rs w' = sent rs w ++ [feed_url "paris"].
Proof.
  intros Hnet Hcode Hbody Hstatus Hdata.
  assert (Hfetch : forall w0,
             network rs w0 (feed_url "paris") = Returns resp ->
             fetch_air_quality_data rs "paris" w0
             = (Returns (JObj []), probing rs "paris" w0)).
  { intros w0 Hw0.
    unfold fetch_air_quality_data, bind, print, try_except_Exception,
      requests_get, ret, lift.
    cbn [clock network sent stdout rng frames].
    fold (feed_url "paris"). rewrite Hw0, Hcode, Hbody.
    cbn [Z.eqb Pos.eqb dict_get]. rewrite Hstatus, Hdata. reflexivity. }
  split; [eexists; apply Hfetch; exact Hnet|].
  split; [discriminate|]. split; [reflexivity|]. split; [reflexivity|].
  unfold main_live_probe, bind, print.
  cbn [clock network sent stdout rng frames].
  rewrite Hfetch by exact Hnet.
  eexists. split; [reflexivity|].
  cbn [probing stdout sent]. rewrite <- !app_assoc. split; reflexivity.
Qed.

Lemma fetch_ok_without_data_is_empty_record_witness :
  (exists w1,
      fetch_air_quality_data counter_rng "paris" (answering ok_without_data)
      = (Returns (JObj []), w1))
  /\ exists w',
      main_live_probe counter_rng (answering ok_without_data)
      = (Returns (JObj []), w')
      /\ stdout counter_rng w'
         = [Text "Air Quality and Weather Analysis";
            Text "==================================================";
            Fmt "Fetching air quality data for " (FStr "paris") "..."].
Proof.
  destruct (fetch_ok_without_data_is_empty_record counter_rng
              (answering ok_without_data)
              (mkResponse 200 (Returns (JObj [("status", JStr "ok")]%string)))
              [("status", JStr "ok")]%string
              eq_refl eq_refl eq_refl eq_refl eq_refl)
    as (Hfetch & _ & _ & _ & w' & Hmain & Hout & _).
  split; [exact Hfetch|]. exists w'. split; assumption.
Defined.

(** * Further properties of the script *)

(** ** The live probe, every outcome *)

(** X1. When the request meets HTTP 200 and a payload whose status is
    ["ok"] and which has a [data] field, the probe returns the value of that
    field as it is, whatever it is, after exactly one request and with no
    line printed but its announcement. *)
Theorem fetch_returns_reading
  (rs : RandomState) (city : string) (w : World rs) (resp : response)
  (fields : list (string * json)) (reading : json) :
  network rs w (feed_url city) = Returns resp ->
  status_code resp = 200 ->
  json_body resp = Returns (JObj fields) ->
  lookup "status"%string fields = Some (JStr "ok") ->
  lookup "data"%string fields = Some reading ->
  exists w',
    fetch_air_quality_data rs city w = (Returns reading, w')
    /\ sent rs w' = sent rs w ++ [feed_url city]
    /\ stdout rs w'
       = stdout rs w ++ [Fmt "Fetching air quality data for " (FStr city) "..."].
Proof.
  intros Hnet Hcode Hbody Hstatus Hdata.
  rewrite (fetch_reading rs city w resp fields reading
             Hnet Hcode Hbody Hstatus Hdata).
  eexists. repeat split.
Qed.

Lemma fetch_returns_reading_witness :
  exists w',
    fetch_air_quality_data counter_rng "paris" (answering ok_with_reading)
    = (Returns paris_reading, w')
    /\ sent counter_rng w' = [feed_url "paris"]
    /\ stdout counter_rng w'
       = [Fmt "Fetching air quality data for " (FStr "paris") "..."].
Proof.
  apply (fetch_returns_reading counter_rng "paris" (answering ok_with_reading)
           (mkResponse 200
              (Returns (JObj [("status", JStr "ok");
                              ("data", paris_reading)]%string)))
           [("status", JStr "ok"); ("data", paris_reading)]%string
           paris_reading);
    reflexivity.
Defined.

(** X2. Whatever the request meets, one call of the probe sends exactly one
    request, to the feed address of the city; it prints its announcement
    first and at most one line after it, and it leaves the clock, the global
    generator and the frames as they were: no retry, no other effect. *)
Theorem fetch_footprint (rs : RandomState) (city : string) (w : World rs) :
  exists outcome w' lines,
    fetch_air_quality_data rs city w = (outcome, w')
    /\ sent rs w' = sent rs w ++ [feed_url city]
    /\ stdout rs w'
       = stdout rs w
         ++ Fmt "Fetching air quality data for " (FStr city) "..." :: lines
    /\ (List.length lines <= 1)%nat
    /\ clock rs w' = clock rs w
    /\ rng rs w' = rng rs w
    /\ frames rs w' = frames rs w.
Proof.
  unfold fetch_air_quality_data, bind, print, try_except_Exception,
    requests_get, ret, lift.
  cbn [clock network sent stdout rng frames].
  fold (feed_url city).
  assert (Happ : forall (l : list printed) a b,
             (l ++ [a]) ++ [b] = l ++ a :: [b])
    by (intros; now rewrite <- app_assoc).
  assert (Hone : forall (a : printed), (List.length [a] <= 1)%nat)
    by (intros; apply le_n).
  destruct (network rs w (feed_url city)) as [resp|e];
    [destruct (status_code resp =? 200);
     [destruct (json_body resp) as [data|e];
      [destruct (dict_get data "status" JNull) as [status|e];
       [destruct (is_str status "ok");
        [destruct (dict_get data "data" (JObj [])) as [reading|e]
        |destruct (dict_get data "message" (JStr "Unknown error"))
           as [message|e]]|]|]|]|];
    try destruct (is_Exception e);
    cbn [clock network sent stdout rng frames];
    rewrite ?Happ;
    do 2 eexists;
    first [ eexists [_]; repeat split; apply Hone
          | exists []; repeat split; apply le_0_n ].
Qed.

(** X3. A body that cannot be decoded, or that decodes to something other
    than an object, is not an error for the caller even under HTTP 200: the
    exception raised inside the probe ([AttributeError] for a payload
    without [get]) is caught, reported as a failed request, and [None] is
    returned. *)
Theorem fetch_undecodable_payload
  (rs : RandomState) (city : string) (w : World rs) (resp : response) :
  network rs w (feed_url city) = Returns resp ->
  status_code resp = 200 ->
  (forall e, json_body resp = Raises e -> is_Exception e = true ->
     fetch_air_quality_data rs city w
     = (Returns JNull,
        logged rs (Fmt "Request failed: " (FExc e) "") (probing rs city w)))
  /\ (forall data, json_body resp = Returns data ->
        (forall fields, data <> JObj fields) ->
        fetch_air_quality_data rs city w
        = (Returns JNull,
           logged rs (Fmt "Request failed: " (FExc AttributeError) "")
                  (probing rs city w))).
Proof.
  intros Hnet Hcode.
  unfold fetch_air_quality_data, bind, print, try_except_Exception,
    requests_get, ret, lift.
  cbn [clock network sent stdout rng frames].
  fold (feed_url city). rewrite Hnet, Hcode. cbn [Z.eqb Pos.eqb].
  split.
  - intros e -> He. now rewrite He.
  - intros data -> Hdata.
    destruct data as [| b | n | s | items | fields]; try reflexivity.
    now destruct (Hdata fields).
Qed.

Lemma fetch_undecodable_payload_witness :
  fetch_air_quality_data counter_rng "paris" (answering garbled)
  = (Returns JNull,
     logged counter_rng (Fmt "Request failed: " (FExc JSONDecodeError) "")
            (probing counter_rng "paris" (answering garbled)))
  /\ fetch_air_quality_data counter_rng "paris" (answering array_payload)
     = (Returns JNull,
        logged counter_rng (Fmt "Request failed: " (FExc AttributeError) "")
               (probing counter_rng "paris" (answering array_payload))).
Proof.
  split.
  - apply (proj1 (fetch_undecodable_payload counter_rng "paris"
                    (answering garbled)
                    (mkResponse 200 (Raises JSONDecodeError))
                    eq_refl eq_refl));
      reflexivity.
  - apply (proj2 (fetch_undecodable_payload counter_rng "paris"
                    (answering array_payload)
                    (mkResponse 200 (Returns (JArr [])))
                    eq_refl eq_refl) (JArr []));
      [reflexivity | discriminate].
Defined.

(** X4. An exception that [except Exception] does not cover (a keyboard
    interrupt during the request) is not turned into [None]: it leaves the
    probe, and [main] with it, after the request was sent; no failure line
    is printed. *)
Theorem fetch_interrupt_propagates
  (rs : RandomState) (w : World rs) :
  network rs w (feed_url "paris") = Raises KeyboardInterrupt ->
  exists w',
    main_live_probe rs w = (Raises KeyboardInterrupt, w')
    /\ sent rs w' = sent rs w ++ [feed_url "paris"]
    /\ stdout rs w'
       = stdout rs w
         ++ [Text "Air Quality and Weather Analysis";
             Text "==================================================";
             Fmt "Fetching air quality data for " (FStr "paris") "..."].
Proof.
  intros Hnet.
  unfold main_live_probe, bind, print.
  cbn [clock network sent stdout rng frames].
  rewrite fetch_interrupted by exact Hnet.
  eexists. split; [reflexivity|].
  cbn [probing stdout sent]. rewrite <- !app_assoc. split; reflexivity.
Qed.

Lemma fetch_interrupt_propagates_witness :
  exists w',
    main_live_probe counter_rng (answering (Raises KeyboardInterrupt))
    = (Raises KeyboardInterrupt, w')
    /\ sent counter_rng w' = [feed_url "paris"]
    /\ stdout counter_rng w'
       = [Text "Air Quality and Weather Analysis";
          Text "==================================================";
          Fmt "Fetching air quality data for " (FStr "paris") "..."].
Proof.
  apply (fetch_interrupt_propagates counter_rng
           (answering (Raises KeyboardInterrupt))).
  reflexivity.
Defined.

(** ** The report of [main] on what the probe returned *)

Lemma report_real_data_not_object
  (rs : RandomState) (real_data : json) (w : World rs) :
  truthy real_data = true ->
  (forall fields, real_data <> JObj fields) ->
  report_real_data rs real_data w
  = (Raises AttributeError,
     logged rs (Text "Successfully fetched real-time data!") w).
Proof.
  intros Htrue Hshape. unfold report_real_data. rewrite Htrue.
  unfold bind, print, lift.
  destruct real_data as [| b | n | s | items | fields]; try reflexivity.
  now destruct (Hshape fields).
Qed.

Lemma report_real_data_city_not_object
  (rs : RandomState) (fields : list (string * json)) (city : json)
  (w : World rs) :
  truthy (JObj fields) = true ->
  lookup "city"%string fields = Some city ->
  (forall cfields, city <> JObj cfields) ->
  report_real_data rs (JObj fields) w
  = (Raises AttributeError,
     logged rs (Text "Successfully fetched real-time data!") w).
Proof.
  intros Htrue Hcity Hshape. unfold report_real_data. rewrite Htrue.
  unfold bind, print, lift. cbn [dict_get]. rewrite Hcity.
  destruct city as [| b | n | s | items | cfields]; try reflexivity.
  now destruct (Hshape cfields).
Qed.

Lemma report_real_data_object
  (rs : RandomState) (fields cfields : list (string * json)) (w : World rs) :
  truthy (JObj fields) = true ->
  match lookup "city"%string fields with Some c => c | None => JObj [] end
  = JObj cfields ->
  report_real_data rs (JObj fields) w
  = (Returns tt,
     logged rs
       (Text (String "010"%char
                   "Note: For historical analysis, using sample dataset..."))
       (logged rs
          (Fmt "Current AQI: "
               (FJson match lookup "aqi"%string fields with
                      | Some v => v
                      | None => JStr "N/A"
                      end) "")
          (logged rs
             (Fmt "Station: "
                  (FJson match lookup "name"%string cfields with
                         | Some v => v
                         | None => JStr "Unknown"
                         end) "")
             (logged rs (Text "Successfully fetched real-time data!") w)))).
Proof.
  intros Htrue Hcity. unfold report_real_data. rewrite Htrue.
  unfold bind, print, lift. cbn [dict_get]. rewrite Hcity. reflexivity.
Qed.

(** X5. [main] trusts the shape of a reading that is true in
    [if real_data:]. When the service answers 200 and ["ok"] with a reading
    that is not an object (a non-empty string or list, a non-zero number,
    [True]), or with an object whose [city] field is present and not an
    object, the report raises [AttributeError], which nothing catches:
    [main] stops right after the line announcing success, before any
    frame is built. *)
Theorem main_live_probe_unexpected_shape
  (rs : RandomState) (w : World rs) (resp : response)
  (fields : list (string * json)) (reading : json) :
  network rs w (feed_url "paris") = Returns resp ->
  status_code resp = 200 ->
  json_body resp = Returns (JObj fields) ->
  lookup "status"%string fields = Some (JStr "ok") ->
  lookup "data"%string fields = Some reading ->
  truthy reading = true ->
  (forall rfields, reading <> JObj rfields)
  \/ (exists rfields city,
        reading = JObj rfields
        /\ lookup "city"%string rfields = Some city
        /\ forall cfields, city <> JObj cfields) ->
  exists w',
    main_live_probe rs w = (Raises AttributeError, w')
    /\ stdout rs w'
       = stdout rs w
         ++ [Text "Air Quality and Weather Analysis";
             Text "==================================================";
             Fmt "Fetching air quality data for " (FStr "paris") "...";
             Text "Successfully fetched real-time data!"]
    /\ frames rs w' = frames rs w.
Proof.
  intros Hnet Hcode Hbody Hstatus Hdata Htrue Hshape.
  unfold main_live_probe, bind, print.
  cbn [clock network sent stdout rng frames].
  rewrite (fetch_reading rs "paris" _ resp fields reading)
    by assumption.
  destruct Hshape as [Hshape | (rfields & city & -> & Hcity & Hshape)].
  - rewrite (report_real_data_not_object rs reading _ Htrue Hshape).
    eexists. split; [reflexivity|].
    cbn [logged probing stdout frames]. rewrite <- !app_assoc.
    split; reflexivity.
  - rewrite (report_real_data_city_not_object rs rfields city _ Htrue Hcity
               Hshape).
    eexists. split; [reflexivity|].
    cbn [logged probing stdout frames]. rewrite <- !app_assoc.
    split; reflexivity.
Qed.

Lemma main_live_probe_unexpected_shape_witness :
  (exists w',
      main_live_probe counter_rng (answering ok_with_text)
      = (Raises AttributeError, w')
      /\ stdout counter_rng w'
         = [Text "Air Quality and Weather Analysis";
            Text "==================================================";
            Fmt "Fetching air quality data for " (FStr "paris") "...";
            Text "Successfully fetched real-time data!"]
      /\ frames counter_rng w' = [])
  /\ (exists w',
      main_live_probe counter_rng (answering ok_with_city_name)
      = (Raises AttributeError, w')
      /\ stdout counter_rng w'
         = [Text "Air Quality and Weather Analysis";
            Text "==================================================";
            Fmt "Fetching air quality data for " (FStr "paris") "...";
            Text "Successfully fetched real-time data!"]
      /\ frames counter_rng w' = []).
Proof.
  split.
  - apply (main_live_probe_unexpected_shape counter_rng
             (answering ok_with_text)
             (mkResponse 200
                (Returns (JObj [("status", JStr "ok");
                                ("data", JStr "maintenance")]%string)))
             [("status", JStr "ok"); ("data", JStr "maintenance")]%string
             (JStr "maintenance"));
      try reflexivity.
    left. discriminate.
  - apply (main_live_probe_unexpected_shape counter_rng
             (answering ok_with_city_name)
             (mkResponse 200
                (Returns (JObj [("status", JStr "ok");
                                ("data", JObj [("city", JStr "Paris")])]%string)))
             [("status", JStr "ok");
              ("data", JObj [("city", JStr "Paris")])]%string
             (JObj [("city", JStr "Paris")]%string));
      try reflexivity.
    right. exists [("city", JStr "Paris")]%string, (JStr "Paris").
    repeat split. discriminate.
Defined.

(** X6. For a reading that is a non-empty object, [main] reports the
    station and the index with defaults for what is missing: the station is
    the [name] of the [city] object, ["Unknown"] when [city] or [name] is
    absent; the index is the [aqi] field, ["N/A"] when absent. The probe's
    reading is returned unchanged and four calls of [print] follow the
    announcement, the last one printing a line feed before its note (five
    lines on the console). *)
Theorem main_live_probe_reports_reading
  (rs : RandomState) (w : World rs) (resp : response)
  (fields rfields cfields : list (string * json)) :
  network rs w (feed_url "paris") = Returns resp ->
  status_code resp = 200 ->
  json_body resp = Returns (JObj fields) ->
  lookup "status"%string fields = Some (JStr "ok") ->
  lookup "data"%string fields = Some (JObj rfields) ->
  rfields <> [] ->
  match lookup "city"%string rfields with Some c => c | None => JObj [] end
  = JObj cfields ->
  exists w',
    main_live_probe rs w = (Returns (JObj rfields), w')
    /\ stdout rs w'
       = stdout rs w
         ++ [Text "Air Quality and Weather Analysis";
             Text "==================================================";
             Fmt "Fetching air quality data for " (FStr "paris") "...";
             Text "Successfully fetched real-time data!";
             Fmt "Station: "
                 (FJson match lookup "name"%string cfields with
                        | Some v => v
                        | None => JStr "Unknown"
                        end) "";
             Fmt "Current AQI: "
                 (FJson match lookup "aqi"%string rfields with
                        | Some v => v
                        | None => JStr "N/A"
                        end) "";
             Text (String "010"%char
                   "Note: For historical analysis, using sample dataset...")].
Proof.
  intros Hnet Hcode Hbody Hstatus Hdata Hne Hcity.
  assert (Htrue : truthy (JObj rfields) = true)
    by (destruct rfields; [contradiction | reflexivity]).
  unfold main_live_probe, bind, print.
  cbn [clock network sent stdout rng frames].
  rewrite (fetch_reading rs "paris" _ resp fields (JObj rfields))
    by assumption.
  rewrite (report_real_data_object rs rfields cfields _ Htrue Hcity).
  eexists. split; [reflexivity|].
  cbn [logged probing stdout]. now rewrite <- !app_assoc.
Qed.

Lemma main_live_probe_reports_reading_witness :
  (exists w',
      main_live_probe counter_rng (answering ok_with_reading)
      = (Returns paris_reading, w')
      /\ stdout counter_rng w'
         = [Text "Air Quality and Weather Analysis";
            Text "==================================================";
            Fmt "Fetching air quality data for " (FStr "paris") "...";
            Text "Successfully fetched real-time data!";
            Fmt "Station: " (FJson (JStr "Paris")) "";
            Fmt "Current AQI: " (FJson (JNum 42)) "";
            Text (String "010"%char
                   "Note: For historical analysis, using sample dataset...")])
  /\ (exists w',
      main_live_probe counter_rng (answering ok_with_idx_only)
      = (Returns (JObj [("idx", JNum 5722)]%string), w')
      /\ stdout counter_rng w'
         = [Text "Air Quality and Weather Analysis";
            Text "==================================================";
            Fmt "Fetching air quality data for " (FStr "paris") "...";
            Text "Successfully fetched real-time data!";
            Fmt "Station: " (FJson (JStr "Unknown")) "";
            Fmt "Current AQI: " (FJson (JStr "N/A")) "";
            Text (String "010"%char
                   "Note: For historical analysis, using sample dataset...")]).
Proof.
  split.
  - apply (main_live_probe_reports_reading counter_rng
             (answering ok_with_reading)
             (mkResponse 200
                (Returns (JObj [("status", JStr "ok");
                                ("data", paris_reading)]%string)))
             [("status", JStr "ok"); ("data", paris_reading)]%string
             [("aqi", JNum 42); ("city", JObj [("name", JStr "Paris")])]%string
             [("name", JStr "Paris")]%string);
      try reflexivity.
    discriminate.
  - apply (main_live_probe_reports_reading counter_rng
             (answering ok_with_idx_only)
             (mkResponse 200
                (Returns (JObj [("status", JStr "ok");
                                ("data", JObj [("idx", JNum 5722)])]%string)))
             [("status", JStr "ok");
              ("data", JObj [("idx", JNum 5722)])]%string
             [("idx", JNum 5722)]%string []);
      try reflexivity.
    discriminate.
Defined.

(** ** The generator: what it touches *)

(** X7. A call of the generator whose start date can be computed builds
    a new frame and touches no other: the reference it returns was not in
    use, every frame alive before is still there unchanged, and the new
    frame has exactly the five columns [date], [pm25], [temperature],
    [humidity], [wind_speed] (no [month]). It sends nothing and prints one
    line. *)
Theorem create_sample_dataset_allocates
  (rs : RandomState) (n_days : Z) (w : World rs) :
  start_representable (clock rs w) n_days = true ->
  exists r df w',
    create_sample_dataset rs n_days w = (Returns r, w')
    /\ frame_at w r = None
    /\ frame_at w' r = Some df
    /\ (forall r0 df0, frame_at w r0 = Some df0 -> frame_at w' r0 = Some df0)
    /\ List.length (frames rs w') = S (List.length (frames rs w))
    /\ columns df
       = ["date"; "pm25"; "temperature"; "humidity"; "wind_speed"]%string
    /\ sent rs w' = sent rs w
    /\ stdout rs w'
       = stdout rs w
         ++ [Text "Creating sample dataset for analysis demonstration..."].
Proof.
  intros Hstart. rewrite create_sample_dataset_run by exact Hstart.
  do 3 eexists. split; [reflexivity|].
  unfold frame_at. cbn [frames sent stdout].
  split; [apply nth_error_None; lia|].
  split; [rewrite nth_error_app2, Nat.sub_diag by lia; reflexivity|].
  split.
  { intros r0 df0 H. rewrite nth_error_app1; [assumption|].
    apply nth_error_Some. congruence. }
  split; [rewrite length_app; simpl; lia|].
  repeat split.
Qed.

Lemma create_sample_dataset_allocates_witness :
  exists r df w',
    create_sample_dataset counter_rng 3 analysis_world = (Returns r, w')
    /\ frame_at analysis_world r = None
    /\ frame_at w' r = Some df
    /\ (forall r0 df0, frame_at analysis_world r0 = Some df0 ->
         frame_at w' r0 = Some df0)
    /\ List.length (frames counter_rng w')
       = S (List.length (frames counter_rng analysis_world))
    /\ columns df
       = ["date"; "pm25"; "temperature"; "humidity"; "wind_speed"]%string
    /\ sent counter_rng w' = sent counter_rng analysis_world
    /\ stdout counter_rng w'
       = stdout counter_rng analysis_world
         ++ [Text "Creating sample dataset for analysis demonstration..."].
Proof.
  apply (create_sample_dataset_allocates counter_rng 3 analysis_world).
  reflexivity.
Defined.

(** X8. A call of the generator whose start date can be computed
    overwrites NumPy's global generator: the state it leaves is the one
    reached from seed 42 by its four draws, whatever the state was before
    the call (a seed set by the caller is lost), and it depends on the day
    count only through the number of samples. *)
Theorem create_sample_dataset_resets_rng
  (rs : RandomState) (n_days : Z) (w1 w2 : World rs) :
  start_representable (clock rs w1) n_days = true ->
  start_representable (clock rs w2) n_days = true ->
  exists r1 w1' r2 w2',
    create_sample_dataset rs n_days w1 = (Returns r1, w1')
    /\ create_sample_dataset rs n_days w2 = (Returns r2, w2')
    /\ rng rs w1' = rng rs w2'
    /\ rng rs w1' = snd (draw_wind_speed rs (Z.to_nat (n_days + 1)))
    /\ draw_wind_speed rs (Z.to_nat (n_days + 1))
       = rs_exponential rs 1 (Z.to_nat (n_days + 1))
           (snd (rs_normal rs 0 10 (Z.to_nat (n_days + 1))
              (snd (rs_normal rs 0 5 (Z.to_nat (n_days + 1))
                 (snd (rs_normal rs 0 8 (Z.to_nat (n_days + 1))
                    (rs_seed rs 42))))))).
Proof.
  intros Hstart1 Hstart2.
  rewrite (create_sample_dataset_run rs n_days w1 Hstart1).
  rewrite (create_sample_dataset_run rs n_days w2 Hstart2).
  do 4 eexists. repeat split.
Qed.

Lemma create_sample_dataset_resets_rng_witness :
  exists r1 w1' r2 w2',
    create_sample_dataset counter_rng 3 quiet_world = (Returns r1, w1')
    /\ create_sample_dataset counter_rng 3 earlier_world = (Returns r2, w2')
    /\ rng counter_rng w1' = rng counter_rng w2'
    /\ rng counter_rng w1'
       = snd (draw_wind_speed counter_rng (Z.to_nat (3 + 1)))
    /\ draw_wind_speed counter_rng (Z.to_nat (3 + 1))
       = rs_exponential counter_rng 1 (Z.to_nat (3 + 1))
           (snd (rs_normal counter_rng 0 10 (Z.to_nat (3 + 1))
              (snd (rs_normal counter_rng 0 5 (Z.to_nat (3 + 1))
                 (snd (rs_normal counter_rng 0 8 (Z.to_nat (3 + 1))
                    (rs_seed counter_rng 42))))))).
Proof.
  apply (create_sample_dataset_resets_rng counter_rng 3 quiet_world
           earlier_world);
    reflexivity.
Defined.

(** ** The generator: where the clamps act *)

Lemma Forall_vadd (P Q S : R -> Prop) (xs ys : list R) :
  (forall x y, P x -> Q y -> S (x + y)%R) ->
  Forall P xs -> Forall Q ys -> Forall S (vadd xs ys).
Proof.
  intros HS Hxs. revert ys.
  induction Hxs as [|x xs Hx Hxs IH]; intros ys Hys; [constructor|].
  destruct Hys as [|y ys Hy Hys]; constructor; auto.
Qed.

Lemma Forall_map_all {A : Type} (P : R -> Prop) (f : A -> R) (l : list A) :
  (forall a, P (f a)) -> Forall P (map f l).
Proof.
  intros H. apply Forall_forall. intros y Hy.
  apply in_map_iff in Hy as (a & <- & _). apply H.
Qed.

Lemma map_np_clip_in_range (lo hi : R) (xs : list R) :
  Forall (fun x => (lo <= x <= hi)%R) xs ->
  map (fun x => np_clip x lo hi) xs = xs.
Proof.
  induction 1 as [|x xs Hx _ IH]; [reflexivity|].
  cbn [map]. rewrite IH. f_equal.
  unfold np_clip, Rmin, Rmax.
  destruct (Rle_dec x lo); destruct (Rle_dec _ hi); lra.
Qed.

(** X9. The lower bound 0.5 of the wind-speed clamp never acts when the
    exponential draws are not negative: the seasonal term
    [3 + 2 sin(...)] is at least 1, so every wind speed of a generated
    frame lies in [1, 12]. *)
Theorem create_sample_dataset_wind_at_least_one
  (rs : RandomState) (n_days : Z) (w : World rs) :
  start_representable (clock rs w) n_days = true ->
  Forall (fun e => 0 <= e)%R
         (fst (draw_wind_speed rs (Z.to_nat (n_days + 1)))) ->
  exists df w',
    create_sample_dataset rs n_days w
    = (Returns (List.length (frames rs w)), w')
    /\ frame_at w' (List.length (frames rs w)) = Some df
    /\ Forall (fun x => 1 <= x <= 12)%R (wind_speed df).
Proof.
  intros Hstart Hnoise. rewrite create_sample_dataset_run by exact Hstart.
  exists (sample_frame rs (clock rs w) n_days). eexists.
  split; [reflexivity|]. split.
  - unfold frame_at. cbn [frames].
    rewrite nth_error_app2, Nat.sub_diag by lia. reflexivity.
  - unfold sample_frame. cbn [wind_speed]. rewrite date_range_span.
    unfold sample_wind_speed.
    apply Forall_forall. intros y Hy.
    apply in_map_iff in Hy as (x & <- & Hx).
    assert (Hraw : (1 <= x)%R).
    { revert x Hx. apply Forall_forall.
      apply (Forall_vadd (fun b => 1 <= b)%R (fun e => 0 <= e)%R
               (fun x => 1 <= x)%R); [| |exact Hnoise].
      - intros b e Hb He. lra.
      - apply Forall_map_all. intros i.
        pose proof (SIN_bound (2 * PI * IZR i / 365 + PI / 4)). lra. }
    unfold np_clip, Rmin, Rmax.
    destruct (Rle_dec x 0.5); destruct (Rle_dec _ 12); lra.
Qed.

Lemma mean_rng_exponential_nonneg (n : nat) :
  Forall (fun e => 0 <= e)%R (fst (draw_wind_speed mean_rng n)).
Proof.
  unfold draw_wind_speed. cbn [mean_rng rs_exponential fst].
  apply Forall_forall. intros e He. apply repeat_spec in He. lra.
Qed.

Lemma create_sample_dataset_wind_at_least_one_witness :
  exists df w',
    create_sample_dataset mean_rng 3 mean_world
    = (Returns (List.length (frames mean_rng mean_world)), w')
    /\ frame_at w' (List.length (frames mean_rng mean_world)) = Some df
    /\ Forall (fun x => 1 <= x <= 12)%R (wind_speed df).
Proof.
  apply (create_sample_dataset_wind_at_least_one mean_rng 3 mean_world).
  - reflexivity.
  - apply mean_rng_exponential_nonneg.
Defined.

(** X10. The PM2.5 clamp acts only on large noise: the seasonal term lies
    in [15, 35], so when every noise sample of the first draw lies in
    [-10, 45] no value is clipped and the column is the seasonal term plus
    the noise, sample by sample (for a call whose start date can be
    computed). *)
Theorem create_sample_dataset_pm25_unclipped
  (rs : RandomState) (n_days : Z) (w : World rs) :
  start_representable (clock rs w) n_days = true ->
  Forall (fun e => -10 <= e <= 45)%R
         (fst (draw_pm25 rs (Z.to_nat (n_days + 1)))) ->
  exists df w',
    create_sample_dataset rs n_days w
    = (Returns (List.length (frames rs w)), w')
    /\ frame_at w' (List.length (frames rs w)) = Some df
    /\ pm25 df
       = vadd (map base_pm25 (np_arange (Z.to_nat (n_days + 1))))
              (fst (draw_pm25 rs (Z.to_nat (n_days + 1)))).
Proof.
  intros Hstart Hnoise. rewrite create_sample_dataset_run by exact Hstart.
  exists (sample_frame rs (clock rs w) n_days). eexists.
  split; [reflexivity|]. split.
  - unfold frame_at. cbn [frames].
    rewrite nth_error_app2, Nat.sub_diag by lia. reflexivity.
  - unfold sample_frame. cbn [pm25]. rewrite date_range_span.
    unfold sample_pm25. apply map_np_clip_in_range.
    apply (Forall_vadd (fun b => 15 <= b <= 35)%R
             (fun e => -10 <= e <= 45)%R (fun x => 5 <= x <= 80)%R);
      [| |exact Hnoise].
    + intros b e Hb He. lra.
    + apply Forall_map_all. intros i. unfold base_pm25.
      pose proof (SIN_bound (2 * PI * IZR i / 365)). lra.
Qed.

Lemma mean_rng_pm25_noise (n : nat) :
  Forall (fun e => -10 <= e <= 45)%R (fst (draw_pm25 mean_rng n)).
Proof.
  unfold draw_pm25. cbn [mean_rng rs_normal fst].
  apply Forall_forall. intros e He. apply repeat_spec in He. lra.
Qed.

Lemma create_sample_dataset_pm25_unclipped_witness :
  exists df w',
    create_sample_dataset mean_rng 3 mean_world
    = (Returns (List.length (frames mean_rng mean_world)), w')
    /\ frame_at w' (List.length (frames mean_rng mean_world)) = Some df
    /\ pm25 df
       = vadd (map base_pm25 (np_arange (Z.to_nat (3 + 1))))
              (fst (draw_pm25 mean_rng (Z.to_nat (3 + 1)))).
Proof.
  apply (create_sample_dataset_pm25_unclipped mean_rng 3 mean_world).
  - reflexivity.
  - apply mean_rng_pm25_noise.
Defined.

(** ** The correlation table: range of its entries *)

Lemma sdev_self_over_pairs (xs ys : list R) :
  List.length ys = List.length xs ->
  sdev xs xs
  = rsum (map (fun p => ((fst p - mean xs) * (fst p - mean xs))%R)
              (combine xs ys))
  /\ sdev ys ys
     = rsum (map (fun p => ((snd p - mean ys) * (snd p - mean ys))%R)
                 (combine xs ys)).
Proof.
  unfold sdev. generalize (mean xs) (mean ys). intros a b.
  revert ys; induction xs as [|x xs IH]; intros [|y ys] Hlen;
    try discriminate; [split; reflexivity|].
  injection Hlen as Hlen. destruct (IH ys Hlen) as [H1 H2].
  cbn [combine map rsum fold_right fst snd] in *.
  fold (rsum (map (fun p => ((fst p - a) * (snd p - a))%R) (combine xs xs))).
  fold (rsum (map (fun p => ((fst p - b) * (snd p - b))%R) (combine ys ys))).
  fold (rsum (map (fun p => ((fst p - a) * (fst p - a))%R) (combine xs ys))).
  fold (rsum (map (fun p => ((snd p - b) * (snd p - b))%R) (combine xs ys))).
  rewrite H1, H2. split; reflexivity.
Qed.

(** Cauchy-Schwarz over the rows: the square of the sum of products is at
    most the product of the sums of squares. *)
Lemma sum_products_square (a b : R) (l : list (R * R)) :
  let A := rsum (map (fun p => ((fst p - a) * (fst p - a))%R) l) in
  let B := rsum (map (fun p => ((fst p - a) * (snd p - b))%R) l) in
  let C := rsum (map (fun p => ((snd p - b) * (snd p - b))%R) l) in
  (0 <= A /\ 0 <= C /\ B * B <= A * C)%R.
Proof.
  induction l as [|[x y] l IH]; cbn [map rsum fold_right fst snd].
  - cbv zeta. lra.
  - cbv zeta in *.
    fold (rsum (map (fun p => ((fst p - a) * (fst p - a))%R) l)).
    fold (rsum (map (fun p => ((fst p - a) * (snd p - b))%R) l)).
    fold (rsum (map (fun p => ((snd p - b) * (snd p - b))%R) l)).
    set (A := rsum (map (fun p => ((fst p - a) * (fst p - a))%R) l)) in *.
    set (B := rsum (map (fun p => ((fst p - a) * (snd p - b))%R) l)) in *.
    set (C := rsum (map (fun p => ((snd p - b) * (snd p - b))%R) l)) in *.
    set (u := (x - a)%R). set (v := (y - b)%R).
    destruct IH as (HA & HC & HB).
    pose proof (Rle_0_sqr u) as Hu. pose proof (Rle_0_sqr v) as Hv.
    unfold Rsqr in Hu, Hv.
    split; [lra|]. split; [lra|].
    (* 2 B u v <= A v^2 + C u^2 *)
    assert (Hmix : (2 * B * (u * v) <= A * (v * v) + C * (u * u))%R).
    { destruct (Rle_lt_dec (B * (u * v)) 0) as [Hneg|Hpos].
      - assert (0 <= A * (v * v))%R by (apply Rmult_le_pos; lra).
        assert (0 <= C * (u * u))%R by (apply Rmult_le_pos; lra).
        lra.
      - pose proof (Rle_0_sqr (A * (v * v) - C * (u * u))) as Hsq.
        unfold Rsqr in Hsq.
        assert (H4 : (4 * (B * B) * ((u * v) * (u * v))
                      <= 4 * (A * C) * ((u * v) * (u * v)))%R).
        { apply Rmult_le_compat_r.
          - pose proof (Rle_0_sqr (u * v)) as H. unfold Rsqr in H. exact H.
          - lra. }
        assert (Hsum : (0 <= A * (v * v) + C * (u * u))%R).
        { assert (0 <= A * (v * v))%R by (apply Rmult_le_pos; lra).
          assert (0 <= C * (u * u))%R by (apply Rmult_le_pos; lra).
          lra. }
        assert (Hsq2 : ((2 * (B * (u * v))) * (2 * (B * (u * v)))
                        <= (A * (v * v) + C * (u * u))
                           * (A * (v * v) + C * (u * u)))%R) by nra.
        destruct (Rle_lt_dec (2 * B * (u * v)) (A * (v * v) + C * (u * u)))
          as [Hle|Hgt]; [exact Hle|].
        exfalso.
        assert (Hlt : ((A * (v * v) + C * (u * u))
                       * (A * (v * v) + C * (u * u))
                       < (2 * (B * (u * v))) * (2 * (B * (u * v))))%R).
        { apply Rmult_le_0_lt_compat; lra. }
        lra. }
    nra.
Qed.

Lemma pearson_range (xs ys : list R) (r : R) :
  List.length ys = List.length xs ->
  pearson xs ys = Some r -> (-1 <= r <= 1)%R.
Proof.
  intros Hlen Hr. unfold pearson in Hr.
  destruct xs as [|x xs']; [discriminate|].
  set (zs := x :: xs') in *.
  destruct (Req_dec_T (sqrt (sdev zs zs * sdev ys ys)) 0) as [|Hd];
    [discriminate|].
  injection Hr as <-.
  destruct (sdev_self_over_pairs zs ys Hlen) as [HA HC].
  pose proof (sum_products_square (mean zs) (mean ys) (combine zs ys))
    as (HA0 & HC0 & HB).
  cbv zeta in HA0, HC0, HB. rewrite <- HA in HA0, HB. rewrite <- HC in HC0, HB.
  fold (sdev zs ys) in HB.
  set (A := sdev zs zs) in *. set (C := sdev ys ys) in *.
  set (B := sdev zs ys) in *.
  assert (HAC : (0 <= A * C)%R) by (apply Rmult_le_pos; assumption).
  pose proof (sqrt_pos (A * C)) as Hs0.
  pose proof (sqrt_sqrt (A * C) HAC) as Hss.
  set (d := sqrt (A * C)) in *.
  assert (Hdpos : (0 < d)%R) by lra.
  assert (Hbound : (- d <= B <= d)%R) by (split; nra).
  split.
  - apply Rmult_le_reg_r with d; [exact Hdpos|].
    unfold Rdiv. rewrite Rmult_assoc, Rinv_l by lra. lra.
  - apply Rmult_le_reg_r with d; [exact Hdpos|].
    unfold Rdiv. rewrite Rmult_assoc, Rinv_l by lra. lra.
Qed.

(** X11. On a live, well-formed frame every entry of the correlation table
    is either not-a-number or a number between -1 and 1. *)
Theorem analyze_correlation_range
  (rs : RandomState) (w : World rs) (r : ref) (df : DataFrame) :
  frame_at w r = Some df ->
  well_formed df ->
  exists correlation monthly_pm25 w',
    analyze_air_quality_weather rs r w
    = (Returns (correlation, monthly_pm25), w')
    /\ forall x y v,
        corr_at correlation x y = Some (Some v) -> (-1 <= v <= 1)%R.
Proof.
  intros Hdf (H1 & H2 & H3 & H4 & _).
  rewrite (analyze_air_quality_weather_run rs w r df Hdf).
  do 3 eexists. split; [reflexivity|].
  intros x y v. unfold corr_at, corr, signal_columns.
  cbn [map fst snd lookup].
  split_on_name x; try discriminate; cbn [lookup];
    split_on_name y; try discriminate;
    intros E; injection E as E; apply pearson_range in E;
    try exact E; congruence.
Qed.

Lemma analyze_correlation_range_witness :
  exists correlation monthly_pm25 w',
    analyze_air_quality_weather counter_rng 0%nat analysis_world
    = (Returns (correlation, monthly_pm25), w')
    /\ forall x y v,
        corr_at correlation x y = Some (Some v) -> (-1 <= v <= 1)%R.
Proof.
  apply (analyze_correlation_range counter_rng analysis_world 0%nat
           three_days).
  - reflexivity.
  - repeat split; reflexivity.
Defined.

(** X12. A constant signal has no defined correlation with anything: its
    whole row and its whole column of the table are not-a-number, not only
    its diagonal entry. *)
Theorem analyze_constant_signal
  (rs : RandomState) (w : World rs) (r : ref) (df : DataFrame)
  (x : string) (col : list R) :
  frame_at w r = Some df ->
  float_column df x = Returns col ->
  constant_column col ->
  exists correlation monthly_pm25 w',
    analyze_air_quality_weather rs r w
    = (Returns (correlation, monthly_pm25), w')
    /\ forall y, In y correlation_cols ->
         corr_at correlation x y = Some None
         /\ corr_at correlation y x = Some None.
Proof.
  intros Hdf Hcol Hconst.
  rewrite (analyze_air_quality_weather_run rs w r df Hdf).
  do 3 eexists. split; [reflexivity|].
  intros y Hy. destruct (float_column_signal df y Hy) as [cy Hcy].
  rewrite (corr_at_signal_columns df x y col cy Hcol Hcy).
  rewrite (corr_at_signal_columns df y x cy col Hcy Hcol).
  rewrite (pearson_sym cy col), (pearson_constant col cy Hconst).
  split; reflexivity.
Qed.

Lemma analyze_constant_signal_witness :
  exists correlation monthly_pm25 w',
    analyze_air_quality_weather counter_rng 0%nat analysis_world
    = (Returns (correlation, monthly_pm25), w')
    /\ forall y, In y correlation_cols ->
         corr_at correlation "humidity" y = Some None
         /\ corr_at correlation y "humidity" = Some None.
Proof.
  apply (analyze_constant_signal counter_rng analysis_world 0%nat three_days
           "humidity" [50; 50; 50]%R).
  - reflexivity.
  - reflexivity.
  - intros a b Ha Hb. simpl in Ha, Hb.
    destruct Ha as [<-|[<-|[<-|[]]]], Hb as [<-|[<-|[<-|[]]]]; reflexivity.
Defined.

(** ** The analysis run again, and on one observation *)

Lemma replace_nth_twice {A : Type} (n : nat) (a b : A) (l : list A) :
  replace_nth n b (replace_nth n a l) = replace_nth n b l.
Proof.
  revert n; induction l as [|x l IH]; intros [|n]; simpl; auto.
  now rewrite IH.
Qed.

(** X13. Analysing a frame twice gives the same two tables twice: the
    second call finds the [month] column the first one stored, overwrites it
    with the same values, and leaves the frames exactly as the first call
    left them. *)
Theorem analyze_twice_same_tables
  (rs : RandomState) (w : World rs) (r : ref) (df : DataFrame) :
  frame_at w r = Some df ->
  exists tables w1 w2,
    analyze_air_quality_weather rs r w = (Returns tables, w1)
    /\ analyze_twice rs r w = (Returns (tables, tables), w2)
    /\ frames rs w2 = frames rs w1
    /\ frame_at w2 r = Some (set_month df (dt_month (date df))).
Proof.
  intros Hdf. unfold analyze_twice, bind, ret.
  rewrite (analyze_air_quality_weather_run rs w r df Hdf).
  set (w1 := mkWorld rs _ _ _ _ _ _).
  assert (Hdf1 : frame_at w1 r = Some (set_month df (dt_month (date df)))).
  { unfold frame_at, w1 in *. cbn [frames].
    now rewrite nth_error_replace_nth, Nat.eqb_refl, Hdf. }
  rewrite (analyze_air_quality_weather_run rs w1 r _ Hdf1).
  do 3 eexists. split; [reflexivity|]. split; [reflexivity|].
  cbn [frames date set_month]. unfold w1. cbn [frames].
  split.
  - apply replace_nth_twice.
  - unfold frame_at. cbn [frames]. unfold frame_at in Hdf.
    now rewrite replace_nth_twice, nth_error_replace_nth, Nat.eqb_refl, Hdf.
Qed.

Lemma analyze_twice_same_tables_witness :
  exists tables w1 w2,
    analyze_air_quality_weather counter_rng 0%nat analysis_world
    = (Returns tables, w1)
    /\ analyze_twice counter_rng 0%nat analysis_world
       = (Returns (tables, tables), w2)
    /\ frames counter_rng w2 = frames counter_rng w1
    /\ frame_at w2 0%nat
       = Some (set_month three_days (dt_month (date three_days))).
Proof.
  apply (analyze_twice_same_tables counter_rng analysis_world 0%nat
           three_days).
  reflexivity.
Defined.

Lemma constant_singleton (x : R) : constant_column [x].
Proof. intros a b [<-|[]] [<-|[]]. reflexivity. Qed.

(** X14. On a series of a single observation every entry of the
    correlation table is not-a-number, the diagonal included, and the
    monthly table has one entry: the month of the observation with its
    PM2.5 reading as the mean. *)
Theorem analyze_single_observation
  (rs : RandomState) (w : World rs) (r : ref) (df : DataFrame) (t : Z)
  (v : R) :
  frame_at w r = Some df ->
  well_formed df ->
  date df = [t] ->
  pm25 df = [v] ->
  exists correlation w',
    analyze_air_quality_weather rs r w
    = (Returns (correlation, [(month_of t, v)]), w')
    /\ forall x y, In x correlation_cols -> In y correlation_cols ->
         corr_at correlation x y = Some None.
Proof.
  intros Hdf (H1 & H2 & H3 & H4 & _) Hdate Hpm25.
  rewrite (analyze_air_quality_weather_run rs w r df Hdf).
  unfold nrows in *. rewrite Hdate in *. rewrite Hpm25.
  exists (corr (signal_columns df)). eexists. split.
  - f_equal. f_equal. f_equal.
    unfold groupby_mean, group_sums. cbn. f_equal. f_equal. field.
  - intros x y Hx Hy.
    destruct (float_column_signal df x Hx) as [cx Hcx].
    destruct (float_column_signal df y Hy) as [cy Hcy].
    rewrite (corr_at_signal_columns df x y cx cy Hcx Hcy). f_equal.
    assert (Hone : List.length cx = 1%nat).
    { cbn [List.length] in H1, H2, H3, H4. unfold float_column in Hcx.
      split_on_name x; try discriminate; injection Hcx as <-; assumption. }
    destruct cx as [|c [|c' cx]]; try discriminate.
    apply pearson_constant, constant_singleton.
Qed.

Lemma analyze_single_observation_witness :
  exists correlation w',
    analyze_air_quality_weather counter_rng 0%nat one_day_world
    = (Returns (correlation, [(month_of 1738238400000000, 10%R)]), w')
    /\ forall x y, In x correlation_cols -> In y correlation_cols ->
         corr_at correlation x y = Some None.
Proof.
  apply (analyze_single_observation counter_rng one_day_world 0%nat one_day
           1738238400000000 10%R).
  - reflexivity.
  - repeat split; reflexivity.
  - reflexivity.
  - reflexivity.
Defined.

(** ** The monthly table: size and groups *)

Lemma sorted_in_range_length (l : list Z) :
  forall lo hi,
    StronglySorted Z.lt l ->
    Forall (fun m => lo <= m <= hi) l ->
    Z.of_nat (List.length l) <= Z.max 0 (hi - lo + 1).
Proof.
  induction l as [|h l IH]; intros lo hi Hs Hr; [simpl; lia|].
  apply StronglySorted_inv in Hs as [Hs Hh].
  apply Forall_cons_iff in Hr as [Hlo Hr].
  assert (Hr' : Forall (fun m => h + 1 <= m <= hi) l).
  { rewrite Forall_forall in *. intros m Hm.
    specialize (Hh m Hm). specialize (Hr m Hm). lia. }
  specialize (IH (h + 1) hi Hs Hr').
  change (List.length (h :: l)) with (S (List.length l)). lia.
Qed.

Lemma groupby_month_size (ds : list Z) (vals : list R) :
  List.length vals = List.length ds ->
  (List.length (groupby_mean (dt_month ds) vals) <= 12)%nat
  /\ (groupby_mean (dt_month ds) vals = [] <-> ds = []).
Proof.
  intros Hlen.
  assert (Hlen' : List.length vals = List.length (dt_month ds))
    by (unfold dt_month; now rewrite length_map).
  destruct (groupby_mean_spec _ _ Hlen') as (Hsorted & Hkeys & _).
  split.
  - assert (Hr : Forall (fun m => 1 <= m <= 12)
                   (map fst (groupby_mean (dt_month ds) vals))).
    { apply Forall_forall. intros m Hm. apply Hkeys in Hm.
      unfold dt_month in Hm. apply in_map_iff in Hm as (t & <- & _).
      apply month_of_range. }
    pose proof (sorted_in_range_length _ 1 12 Hsorted Hr) as H.
    rewrite length_map in H. lia.
  - split.
    + intros Hnil. destruct ds as [|t ds]; [reflexivity|].
      assert (Hin : In (month_of t)
                       (map fst (groupby_mean (dt_month (t :: ds)) vals)))
        by (apply Hkeys; now left).
      rewrite Hnil in Hin. destruct Hin.
    + intros ->. reflexivity.
Qed.

(** X15. The monthly table of a live, well-formed frame has at most twelve
    entries, and it is empty exactly when the frame has no rows. *)
Theorem analyze_monthly_size
  (rs : RandomState) (w : World rs) (r : ref) (df : DataFrame) :
  frame_at w r = Some df ->
  well_formed df ->
  exists correlation monthly_pm25 w',
    analyze_air_quality_weather rs r w
    = (Returns (correlation, monthly_pm25), w')
    /\ (List.length monthly_pm25 <= 12)%nat
    /\ (monthly_pm25 = [] <-> nrows df = 0%nat).
Proof.
  intros Hdf (Hpm25 & _).
  rewrite (analyze_air_quality_weather_run rs w r df Hdf).
  do 3 eexists. split; [reflexivity|].
  destruct (groupby_month_size (date df) (pm25 df) Hpm25) as [Hsize Hnil].
  split; [exact Hsize|].
  rewrite Hnil. unfold nrows. symmetry. apply length_zero_iff_nil.
Qed.

Lemma analyze_monthly_size_witness :
  exists correlation monthly_pm25 w',
    analyze_air_quality_weather counter_rng 0%nat analysis_world
    = (Returns (correlation, monthly_pm25), w')
    /\ (List.length monthly_pm25 <= 12)%nat
    /\ (monthly_pm25 = [] <-> nrows three_days = 0%nat).
Proof.
  apply (analyze_monthly_size counter_rng analysis_world 0%nat three_days).
  - reflexivity.
  - repeat split; reflexivity.
Defined.

Lemma recorded_count_group_add (k : Z) (v : R) (acc : list (Z * (R * nat))) :
  recorded_count (group_add k v acc) = S (recorded_count acc).
Proof.
  unfold recorded_count.
  induction acc as [|[k' [s c]] rest IH]; cbn [group_add].
  - reflexivity.
  - destruct (k <? k'); [reflexivity|].
    destruct (k =? k'); cbn [map fold_right fst snd] in *.
    + reflexivity.
    + rewrite IH. lia.
Qed.

Lemma recorded_count_group_fold (rows : list (Z * R)) :
  forall acc,
    recorded_count (group_fold rows acc)
    = (recorded_count acc + List.length rows)%nat.
Proof.
  induction rows as [|[k v] rows IH]; intros acc.
  - simpl. lia.
  - change (group_fold ((k, v) :: rows) acc)
      with (group_fold rows (group_add k v acc)).
    rewrite IH, recorded_count_group_add. simpl. lia.
Qed.

(** What a grouping records for a key: the number of the readings of that
    key, of which there is at least one. *)
Lemma group_sums_entry (ks : list Z) (vals : list R) (k : Z) (s : R)
  (c : nat) :
  In (k, (s, c)) (group_sums ks vals) ->
  c = List.length (group_values k ks vals) /\ c <> 0%nat.
Proof.
  unfold group_sums. fold (group_fold (combine ks vals) []). intros Hin.
  destruct (group_fold_spec (combine ks vals) [] (SSorted_nil _))
    as (Hsorted & Hkeys & Htally).
  pose proof (tally_In _ _ _ Hsorted Hin) as Ht.
  rewrite Htally in Ht. cbn [tally fst snd] in Ht.
  change (readings k (combine ks vals)) with (group_values k ks vals) in Ht.
  injection Ht as _ Hc.
  split; [now symmetry|].
  assert (Hk : In k (keys (group_fold (combine ks vals) [])))
    by (apply in_map_iff; now exists (k, (s, c))).
  apply Hkeys in Hk as [[]|Hk].
  apply in_map_iff in Hk as ([k0 v0] & E0 & Hin0). cbn in E0. subst k0.
  assert (Hf : In v0 (group_values k ks vals)).
  { unfold group_values. apply in_map_iff. exists (k, v0). split; [easy|].
    apply filter_In. split; [assumption | apply Z.eqb_refl]. }
  rewrite <- Hc. destruct (group_values k ks vals); [destruct Hf|].
  discriminate.
Qed.

(** X16. The monthly groups partition the rows: on a live, well-formed
    frame every month of the table has at least one row dated in it, and
    the sizes of the groups add up to the number of rows (no row is dropped
    or counted twice). *)
Theorem analyze_monthly_groups
  (rs : RandomState) (w : World rs) (r : ref) (df : DataFrame) :
  frame_at w r = Some df ->
  well_formed df ->
  exists correlation monthly_pm25 w',
    analyze_air_quality_weather rs r w
    = (Returns (correlation, monthly_pm25), w')
    /\ Forall (fun kv =>
                 group_values (fst kv) (dt_month (date df)) (pm25 df) <> [])
              monthly_pm25
    /\ fold_right Nat.add 0%nat
         (map (fun kv =>
                 List.length (group_values (fst kv) (dt_month (date df))
                                           (pm25 df)))
              monthly_pm25)
       = nrows df.
Proof.
  intros Hdf (Hpm25 & _).
  rewrite (analyze_air_quality_weather_run rs w r df Hdf).
  do 3 eexists. split; [reflexivity|].
  set (ks := dt_month (date df)). set (vals := pm25 df).
  assert (Hlen : List.length vals = List.length ks)
    by (unfold ks, vals, dt_month; now rewrite length_map).
  split.
  - apply Forall_forall. intros [m v] Hin. cbn [fst].
    now destruct (proj2 (proj2 (groupby_mean_spec ks vals Hlen)) m v Hin).
  - pose proof (recorded_count_group_fold (combine ks vals) []) as Hcount.
    fold (group_sums ks vals) in Hcount.
    unfold recorded_count in Hcount. cbn [map fold_right] in Hcount.
    rewrite length_combine, Hlen, Nat.min_id, Nat.add_0_l in Hcount.
    unfold groupby_mean. rewrite !map_map. cbn [fst snd].
    unfold nrows. replace (List.length (date df)) with (List.length ks)
      by (unfold ks, dt_month; apply length_map).
    rewrite <- Hcount. f_equal. apply map_ext_in.
    intros [k [s c]] Hin. cbn [fst snd].
    now destruct (group_sums_entry ks vals k s c Hin) as (<- & _).
Qed.

Lemma analyze_monthly_groups_witness :
  exists correlation monthly_pm25 w',
    analyze_air_quality_weather counter_rng 0%nat analysis_world
    = (Returns (correlation, monthly_pm25), w')
    /\ Forall (fun kv =>
                 group_values (fst kv) (dt_month (date three_days))
                              (pm25 three_days) <> [])
              monthly_pm25
    /\ fold_right Nat.add 0%nat
         (map (fun kv =>
                 List.length
                   (group_values (fst kv) (dt_month (date three_days))
                                 (pm25 three_days)))
              monthly_pm25)
       = nrows three_days.
Proof.
  apply (analyze_monthly_groups counter_rng analysis_world 0%nat three_days).
  - reflexivity.
  - repeat split; reflexivity.
Defined.

(** ** Generation, then analysis *)



(** ** An invariant of the store *)

(** X18. Generation and analysis keep the store consistent: if every frame
    alive has one entry per row in every column, this still holds after a
    call of the generator (whatever the day count) and after a call of the
    analysis (whatever the reference, a dead one raising and changing
    nothing); the [month] column the analysis stores has one month number,
    1 to 12, per row. *)
Theorem store_well_formed_kept
  (rs : RandomState) (w : World rs) :
  store_well_formed w ->
  (forall n_days outcome w',
      create_sample_dataset rs n_days w = (outcome, w') ->
      store_well_formed w')
  /\ (forall r outcome w',
        analyze_air_quality_weather rs r w = (outcome, w') ->
        store_well_formed w'
        /\ forall df', frame_at w r <> None -> frame_at w' r = Some df' ->
             exists months,
               month df' = Some months
               /\ List.length months = nrows df'
               /\ Forall (fun m => 1 <= m <= 12) months).
Proof.
  intros Hw. split.
  - intros n_days outcome w' Hrun.
    destruct (start_representable (clock rs w) n_days) eqn:Hstart;
      [rewrite create_sample_dataset_run in Hrun by exact Hstart
      |rewrite create_sample_dataset_overflow in Hrun by exact Hstart;
       injection Hrun as _ <-; exact Hw].
    injection Hrun as _ <-. intros r df. unfold frame_at. cbn [frames].
    intros Hdf. destruct (Nat.lt_ge_cases r (List.length (frames rs w))).
    + rewrite nth_error_app1 in Hdf by assumption. now apply (Hw r).
    + rewrite nth_error_app2 in Hdf by assumption.
      destruct (r - List.length (frames rs w))%nat as [|k];
        [|destruct k; discriminate].
      injection Hdf as <-. apply sample_frame_well_formed.
  - intros r outcome w' Hrun.
    destruct (frame_at w r) as [df|] eqn:Hdf.
    + rewrite (analyze_air_quality_weather_run rs w r df Hdf) in Hrun.
      injection Hrun as _ <-.
      assert (Hnew : well_formed (set_month df (dt_month (date df)))).
      { destruct (Hw r df Hdf) as (H1 & H2 & H3 & H4 & _).
        unfold well_formed, nrows, set_month in *.
        cbn [date pm25 temperature humidity wind_speed month].
        repeat split; try assumption. unfold dt_month. apply length_map. }
      split.
      * intros r0 df0. unfold frame_at in *. cbn [frames].
        rewrite nth_error_replace_nth.
        destruct (Nat.eqb_spec r0 r) as [->|_].
        -- rewrite Hdf. intros E. injection E as <-. exact Hnew.
        -- apply Hw.
      * intros df' _. unfold frame_at in *. cbn [frames].
        rewrite nth_error_replace_nth, Nat.eqb_refl, Hdf.
        intros E. injection E as <-.
        exists (dt_month (date df)). split; [reflexivity|].
        split; [unfold nrows, dt_month; cbn [set_month date];
                apply length_map|].
        apply Forall_forall. intros m Hm. unfold dt_month in Hm.
        apply in_map_iff in Hm as (t & <- & _). apply month_of_range.
    + unfold analyze_air_quality_weather, bind, print, frame_get in Hrun.
      cbn [clock network sent stdout rng frames] in Hrun.
      unfold frame_at in Hdf. rewrite Hdf in Hrun.
      injection Hrun as _ <-. split.
      * intros r0 df0. unfold frame_at. cbn [frames]. apply Hw.
      * intros df' Habs. now destruct Habs.
Qed.

Lemma store_well_formed_kept_witness :
  (forall n_days outcome w',
      create_sample_dataset counter_rng n_days analysis_world = (outcome, w') ->
      store_well_formed w')
  /\ (forall r outcome w',
        analyze_air_quality_weather counter_rng r analysis_world
        = (outcome, w') ->
        store_well_formed w'
        /\ forall df', frame_at analysis_world r <> None ->
             frame_at w' r = Some df' ->
             exists months,
               month df' = Some months
               /\ List.length months = nrows df'
               /\ Forall (fun m => 1 <= m <= 12) months).
Proof.
  apply (store_well_formed_kept counter_rng analysis_world).
  intros r df. unfold frame_at. cbn [frames analysis_world].
  destruct r as [|[|[|r]]]; try discriminate;
    intros E; injection E as <-; repeat split; reflexivity.
Defined.

(** X19. Any reading that is false in [if real_data:] is treated as
    absence, in silence: when the service answers 200 and ["ok"] with a
    [data] field that is [null], [false], zero, an empty string, an empty
    list or an empty object, the probe returns it, [main] prints neither a
    success line nor an error line, and goes on. *)
Theorem main_live_probe_falsy_reading
  (rs : RandomState) (w : World rs) (resp : response)
  (fields : list (string * json)) (reading : json) :
  network rs w (feed_url "paris") = Returns resp ->
  status_code resp = 200 ->
  json_body resp = Returns (JObj fields) ->
  lookup "status"%string fields = Some (JStr "ok") ->
  lookup "data"%string fields = Some reading ->
  truthy reading = false ->
  exists w',
    main_live_probe rs w = (Returns reading, w')
    /\ stdout rs w'
       = stdout rs w
         ++ [Text "Air Quality and Weather Analysis";
             Text "==================================================";
             Fmt "Fetching air quality data for " (FStr "paris") "..."].
Proof.
  intros Hnet Hcode Hbody Hstatus Hdata Hfalse.
  unfold main_live_probe, bind, print.
  cbn [clock network sent stdout rng frames].
  rewrite (fetch_reading rs "paris" _ resp fields reading) by assumption.
  unfold report_real_data. rewrite Hfalse. unfold ret.
  eexists. split; [reflexivity|].
  cbn [probing stdout]. now rewrite <- !app_assoc.
Qed.

Lemma main_live_probe_falsy_reading_witness :
  exists w',
    main_live_probe counter_rng (answering ok_with_empty_list)
    = (Returns (JArr []), w')
    /\ stdout counter_rng w'
       = [Text "Air Quality and Weather Analysis";
          Text "==================================================";
          Fmt "Fetching air quality data for " (FStr "paris") "..."].
Proof.
  apply (main_live_probe_falsy_reading counter_rng
           (answering ok_with_empty_list)
           (mkResponse 200
              (Returns (JObj [("status", JStr "ok");
                              ("data", JArr [])]%string)))
           [("status", JStr "ok"); ("data", JArr [])]%string (JArr []));
    reflexivity.
Defined.
